(** * Screen-time analytics: a shallow embedding of [api/processing.py]

    The development follows the module top to bottom: the categorizer
    ([auto_categorize_app] over [CATEGORY_PATTERNS]), the normalizer
    ([process_entries]), the scorer ([calculate_chronic_score]), the tip
    generator ([generate_tips]), the aggregator ([calculate_metrics]) and the
    pipeline ([analyze_entries]).

    Conventions of the embedding.
    - Python [str] is [string]; [str.lower] is modelled on ASCII letters.
    - Python/NumPy floating-point numbers are modelled by exact rationals [Q];
      equalities between them are stated with [==].  NaN / NaT / None cells of
      a DataFrame column are [None].
    - A raising call returns [Raise e]; a normal return is [Ok v].
    - Library routines of pandas and of the Python runtime whose behaviour the
      module relies on but does not define (date parsing, numeric parsing of
      strings, date and period formatting, float formatting) are the fields of
      the class [Runtime]. *)

From Stdlib Require Import String Ascii List Bool ZArith NArith QArith Qround Qabs Lqa Lia DecimalString.
From Stdlib Require Import Permutation Sorted.
From Stdlib Require OrderedTypeEx.
Import ListNotations.

Local Open Scope string_scope.
Local Open Scope Z_scope.

(** ** Python strings *)

Module Str.

(** [c.lower()] on one ASCII character. *)
Definition lower_ascii (c : ascii) : ascii :=
  let n := N_of_ascii c in
  if ((65 <=? n) && (n <=? 90))%N then ascii_of_N (n + 32) else c.

(** [s.lower()]. *)
Fixpoint lower (s : string) : string :=
  match s with
  | EmptyString => EmptyString
  | String c r => String (lower_ascii c) (lower r)
  end.

(** [s.startswith(p)]. *)
Fixpoint startswith (p s : string) : bool :=
  match p, s with
  | EmptyString, _ => true
  | String _ _, EmptyString => false
  | String a p', String b s' => Ascii.eqb a b && startswith p' s'
  end.

(** [p in s] for strings: [p] occurs in [s] as a contiguous substring. *)
Fixpoint str_in (p s : string) : bool :=
  match s with
  | EmptyString => startswith p EmptyString
  | String _ r => startswith p s || str_in p r
  end.

End Str.

(** ** Categorizer *)

(** [CATEGORY_PATTERNS]: a dict literal, iterated in insertion order. *)
Definition CATEGORY_PATTERNS : list (string * list string) :=
  [ ("Social Media",
      ["instagram"; "facebook"; "twitter"; "x.com"; "tiktok"; "snapchat";
       "linkedin"; "reddit"; "pinterest"; "whatsapp"; "telegram"; "discord";
       "youtube"; "twitch"; "messenger"; "wechat"; "line"; "viber"]);
    ("Productivity",
      ["gmail"; "outlook"; "slack"; "notion"; "trello"; "asana"; "todoist";
       "calendar"; "notes"; "reminders"; "evernote"; "onenote"; "google docs";
       "sheets"; "drive"; "dropbox"; "zoom"; "teams"; "meet"]);
    ("Entertainment",
      ["netflix"; "spotify"; "apple music"; "disney"; "hulu"; "prime video";
       "hbo"; "paramount"; "peacock"; "crunchyroll"; "plex"; "vudu"]);
    ("Gaming",
      ["game"; "play"; "roblox"; "minecraft"; "fortnite"; "pubg"; "cod";
       "among us"; "candy crush"; "clash"; "pokemon go"]);
    ("News",
      ["news"; "cnn"; "bbc"; "reuters"; "nytimes"; "washington post";
       "the guardian"; "bloomberg"; "wsj"; "economist"]);
    ("Shopping",
      ["amazon"; "ebay"; "etsy"; "shopify"; "wish"; "alibaba"; "target";
       "walmart"; "best buy"; "zara"; "nike"; "adidas"]);
    ("Health & Fitness",
      ["fitness"; "workout"; "myfitnesspal"; "strava"; "nike run"; "fitbit";
       "apple health"; "calm"; "headspace"; "meditation"; "yoga"]);
    ("Education",
      ["coursera"; "udemy"; "khan academy"; "duolingo"; "quizlet"; "ted";
       "skillshare"; "masterclass"; "edx"]) ].

(** The inner loop [for pattern in patterns: if pattern in app_lower: return category];
    [true] when the loop returns. *)
Fixpoint scan_patterns (app_lower : string) (patterns : list string) : bool :=
  match patterns with
  | [] => false
  | pattern :: rest =>
      if Str.str_in pattern app_lower then true else scan_patterns app_lower rest
  end.

(** The outer loop over [CATEGORY_PATTERNS.items()], falling through to
    [return "Other"]. *)
Fixpoint scan_categories (app_lower : string) (items : list (string * list string)) : string :=
  match items with
  | [] => "Other"
  | (category, patterns) :: rest =>
      if scan_patterns app_lower patterns then category
      else scan_categories app_lower rest
  end.

Definition auto_categorize_app (app_name : string) : string :=
  let app_lower := Str.lower app_name in
  scan_categories app_lower CATEGORY_PATTERNS.


(** ** Numbers *)

Module Num.

Definition Qltb (x y : Q) : bool := negb (Qle_bool y x).
Definition Qgeb (x y : Q) : bool := Qle_bool y x.

(** Round to the nearest integer, ties to the even one. *)
Definition round_half_even (x : Q) : Z :=
  let f := Qfloor x in
  match Qcompare (x - inject_Z f) (1 # 2) with
  | Lt => f
  | Gt => f + 1
  | Eq => if Z.even f then f else f + 1
  end.

(** [round(x, ndigits)]. *)
Definition round (x : Q) (ndigits : nat) : Q :=
  let scale := inject_Z (10 ^ Z.of_nat ndigits) in
  inject_Z (round_half_even (x * scale)) / scale.

(** [int(x)]: truncation toward zero. *)
Definition int (x : Q) : Z :=
  if Qle_bool 0 x then Qfloor x else Qceiling x.

(** [Series.sum()] of a float column; NaN cells are skipped. *)
Fixpoint sum (col : list (option Q)) : Q :=
  match col with
  | [] => 0
  | Some x :: rest => x + sum rest
  | None :: rest => sum rest
  end.

(** [Series.sum()] of an integer column. *)
Definition sumZ (col : list Z) : Z := fold_right Z.add 0 col.

(** A NaN cell counts as zero inside a sum. *)
Definition nan_to_zero (c : option Q) : Q :=
  match c with Some x => x | None => 0%Q end.

End Num.

(** ** Exceptions *)

Inductive exn : Type :=
| ValueError      (* raised by [pd.to_datetime] on an unparsable string *)
| AttributeError. (* raised by [app_name.lower()] when the app cell is not a string *)

Inductive result (A : Type) : Type :=
| Ok (a : A)
| Raise (e : exn).
Arguments Ok {A} a.
Arguments Raise {A} e.

Definition bind {A B : Type} (m : result A) (k : A -> result B) : result B :=
  match m with
  | Ok a => k a
  | Raise e => Raise e
  end.

Notation "x <- m ;; k" := (bind m (fun x => k))
  (at level 61, m at next level, right associativity).

(** Run [f] over a column left to right; the first exception aborts the pass. *)
Fixpoint mapM {A B : Type} (f : A -> result B) (l : list A) : result (list B) :=
  match l with
  | [] => Ok []
  | a :: rest =>
      b <- f a ;;
      bs <- mapM f rest ;;
      Ok (b :: bs)
  end.

(** ** Data model *)

(** [datetime64[ns]]: nanoseconds since the epoch. *)
Definition Timestamp : Type := Z.

(** A cell of the [time_minutes] input column: a number, a string still to be
    coerced, or None. *)
Inductive RawValue : Type :=
| VNone
| VNum (q : Q)
| VStr (s : string).

(** One input dict.  The keys [date], [app] and [time_minutes] are present
    (their value may be None); [category] and [pickups] are optional, an
    absent key and a None value both giving a NaN cell in the DataFrame. *)
Record RawEntry : Type := {
  raw_date : option string;
  raw_app : option string;
  raw_time_minutes : RawValue;
  raw_category : option string;
  raw_pickups : option Z
}.

(** One row of the DataFrame built by [process_entries]. *)
Record Row : Type := {
  date : option Timestamp;
  app : option string;
  time_minutes : option Q;
  category : string;
  pickups : Z;
  time_hours : option Q
}.

Definition DataFrame : Type := list Row.

(** [df.empty] / [not entries]. *)
Definition empty {A : Type} (l : list A) : bool :=
  match l with [] => true | _ :: _ => false end.

Record DailyTotal : Type := {
  dt_date : string;
  dt_time_hours : Q;
  dt_pickups : Z
}.

Record WeeklyTotal : Type := {
  wt_period : string;
  wt_time_hours : Q;
  wt_pickups : Z
}.

(** The dict returned by [calculate_metrics].  [top_apps] is [None] when the
    dict has no such key. *)
Record Metrics : Type := {
  total_screen_time_hours : Q;
  total_screen_time_minutes : Z;
  doomscroll_hours : Q;
  total_pickups : Z;
  avg_pickups_per_day : Q;
  days_tracked : Z;
  category_breakdown : list (string * Q);
  daily_totals : list DailyTotal;
  weekly_totals : list WeeklyTotal;
  top_apps : option (list (string * Q))
}.

Record Breakdown : Type := {
  b_time_score : Z;
  b_doomscroll_score : Z;
  b_pickup_score : Z;
  b_avg_hours_per_day : Q;
  b_doomscroll_percentage : Q
}.

(** The dict returned by [calculate_chronic_score]; an empty [breakdown] dict
    is [None]. *)
Record ChronicScore : Type := {
  score : Z;
  level : string;
  description : string;
  breakdown : option Breakdown
}.

Record Tip : Type := {
  tip_title : string;
  tip_description : string;
  tip_priority : string;
  tip_category : string
}.

Record Analysis : Type := {
  metrics : Metrics;
  chronic_score : ChronicScore;
  tips : list Tip;
  processed_entries_count : Z
}.

(** ** Library boundary *)

Class Runtime : Type := {
  (** [pd.to_datetime] on one string; [None] when the string does not parse. *)
  parse_datetime : string -> option Timestamp;
  (** [pd.to_numeric] on one string; [None] when it is not a number. *)
  parse_numeric : string -> option Q;
  (** [Timestamp.strftime('%Y-%m-%d')]. *)
  strftime_ymd : Timestamp -> string;
  (** [dt.to_period('W')]: the ordinal of the week the timestamp falls in. *)
  to_period_W : Timestamp -> Z;
  (** [str] of a weekly period. *)
  period_str : Z -> string;
  (** [format(x, '.<n>f')]. *)
  format_fixed : nat -> Q -> string
}.

(** ** groupby / sort_values *)

Section GroupBy.
Context {K V : Type} (cmp : K -> K -> comparison) (add : V -> V -> V).

(** Add one row to the groups, kept sorted by key. *)
Fixpoint group_add (k : K) (v : V) (groups : list (K * V)) : list (K * V) :=
  match groups with
  | [] => [(k, v)]
  | (k', v') :: rest =>
      match cmp k k' with
      | Lt => (k, v) :: groups
      | Eq => (k', add v' v) :: rest
      | Gt => (k', v') :: group_add k v rest
      end
  end.

(** [df.groupby(key)[...].sum()]: rows are taken in order, groups come out
    sorted by key. *)
Definition groupby_sum (rows : list (K * V)) : list (K * V) :=
  fold_left (fun groups kv => group_add (fst kv) (snd kv) groups) rows [].
End GroupBy.

(** Rows whose key cell is NaN take no part in a groupby. *)
Fixpoint keyed {K V : Type} (rows : list (option K * V)) : list (K * V) :=
  match rows with
  | [] => []
  | (Some k, v) :: rest => (k, v) :: keyed rest
  | (None, _) :: rest => keyed rest
  end.

Section SortBy.
Context {A : Type} (before : A -> A -> bool).

(** Insert [x] in front of the first element it may precede. *)
Fixpoint insert_by (x : A) (l : list A) : list A :=
  match l with
  | [] => [x]
  | y :: rest => if before x y then x :: l else y :: insert_by x rest
  end.

(** A stable sort: among elements that may precede each other, the input
    order is kept. *)
Definition sort_by (l : list A) : list A := fold_right insert_by [] l.
End SortBy.

(** The comparison behind [list.sort(key=...)]. *)
Definition key_le {A : Type} (key : A -> Z) (x y : A) : bool := key x <=? key y.

(** ** Normalizer *)

Section Normalizer.
Context {RT : Runtime}.

(** One cell of [pd.to_datetime(df['date'])] (default [errors='raise']):
    None becomes NaT, a string that does not parse raises. *)
Definition to_datetime_cell (c : option string) : result (option Timestamp) :=
  match c with
  | None => Ok None
  | Some s =>
      match parse_datetime s with
      | Some t => Ok (Some t)
      | None => Raise ValueError
      end
  end.

Definition to_datetime (col : list (option string)) : result (list (option Timestamp)) :=
  mapM to_datetime_cell col.

(** One cell of [pd.to_numeric(df['time_minutes'], errors='coerce')]. *)
Definition to_numeric (v : RawValue) : option Q :=
  match v with
  | VNone => None
  | VNum q => Some q
  | VStr s => parse_numeric s
  end.

(** The lambda of [df.apply(..., axis=1)]:
    [row['category'] if pd.notna(row.get('category')) else auto_categorize_app(row['app'])]. *)
Definition categorize_row (e : RawEntry) : result string :=
  match raw_category e with
  | Some c => Ok c
  | None =>
      match raw_app e with
      | Some a => Ok (auto_categorize_app a)
      | None => Raise AttributeError
      end
  end.

(** [df['pickups'].fillna(0).astype(int)]. *)
Definition fillna0 (c : option Z) : Z :=
  match c with Some p => p | None => 0 end.

(** [(df['time_minutes'] > 0)]; a comparison with NaN is False. *)
Definition positive (c : option Q) : bool :=
  match c with Some t => Num.Qltb 0 t | None => false end.

(** The column statements of [process_entries] after the date column,
    applied to one row. *)
Definition normalize_row (ed : RawEntry * option Timestamp) : result Row :=
  let (e, d) := ed in
  let minutes := to_numeric (raw_time_minutes e) in
  cat <- categorize_row e ;;
  let pk := fillna0 (raw_pickups e) in
  let pk := if positive minutes && (pk =? 0) then 1 else pk in
  Ok {| date := d;
        app := raw_app e;
        time_minutes := minutes;
        category := cat;
        pickups := pk;
        time_hours := option_map (fun t => t / 60)%Q minutes |}.

Definition notna {A : Type} (c : option A) : bool :=
  match c with Some _ => true | None => false end.

(** [df.dropna(subset=['date', 'app', 'time_minutes'])]. *)
Definition dropna (df : DataFrame) : DataFrame :=
  filter (fun r => notna (date r) && notna (app r) && notna (time_minutes r)) df.

Definition process_entries (entries : list RawEntry) : result DataFrame :=
  if empty entries then Ok []
  else
    dates <- to_datetime (map raw_date entries) ;;
    rows <- mapM normalize_row (combine entries dates) ;;
    Ok (dropna rows).

(** Row [r] carries the date, app and time cells of entry [e]. *)
Definition record_of (e : RawEntry) (r : Row) : Prop :=
  to_datetime_cell (raw_date e) = Ok (date r)
  /\ app r = raw_app e
  /\ time_minutes r = to_numeric (raw_time_minutes e).

End Normalizer.

(** ** Scorer *)

Definition avg_hours_per_day (m : Metrics) : Q :=
  total_screen_time_hours m / inject_Z (days_tracked m).

Definition doomscroll_ratio (m : Metrics) : Q :=
  if Num.Qltb 0 (total_screen_time_hours m)
  then (doomscroll_hours m / total_screen_time_hours m) * 100
  else 0.

Definition time_score (m : Metrics) : Z :=
  let h := avg_hours_per_day m in
  if Num.Qltb h 2 then 0
  else if Num.Qltb h 4 then 10
  else if Num.Qltb h 6 then 20
  else if Num.Qltb h 8 then 30
  else 40.

Definition doomscroll_score (m : Metrics) : Z :=
  let r := doomscroll_ratio m in
  if Num.Qltb r 20 then 0
  else if Num.Qltb r 40 then 10
  else if Num.Qltb r 60 then 20
  else 30.

Definition pickup_score (m : Metrics) : Z :=
  let avg_pickups := avg_pickups_per_day m in
  if Num.Qltb avg_pickups 50 then 0
  else if Num.Qltb avg_pickups 100 then 10
  else if Num.Qltb avg_pickups 150 then 20
  else 30.

Definition total_score (m : Metrics) : Z :=
  time_score m + doomscroll_score m + pickup_score m.

Definition level_of (total : Z) : string * string :=
  if total <? 20 then
    ("Casually Online",
     "You have a healthy relationship with your devices! Keep it up.")
  else if total <? 40 then
    ("Moderately Online",
     "You're spending a reasonable amount of time online. Some small adjustments could help.")
  else if total <? 60 then
    ("Pretty Online",
     "You're spending quite a bit of time on your devices. Consider setting some boundaries.")
  else if total <? 80 then
    ("Very Online",
     "You're spending a lot of time online. It might be time to reassess your digital habits.")
  else
    ("Chronically Online",
     "You're spending excessive time online. Consider implementing significant changes to your digital routine.").

Definition calculate_chronic_score (m : Metrics) : ChronicScore :=
  if days_tracked m =? 0 then
    {| score := 0;
       level := "Unknown";
       description := "No data available";
       breakdown := None |}
  else
    {| score := total_score m;
       level := fst (level_of (total_score m));
       description := snd (level_of (total_score m));
       breakdown := Some {| b_time_score := time_score m;
                            b_doomscroll_score := doomscroll_score m;
                            b_pickup_score := pickup_score m;
                            b_avg_hours_per_day := Num.round (avg_hours_per_day m) 2;
                            b_doomscroll_percentage := Num.round (doomscroll_ratio m) 1 |} |}.

(** ** Tip generator *)

(** [d.get(key, 0)] on a dict of floats. *)
Fixpoint get0 (key : string) (d : list (string * Q)) : Q :=
  match d with
  | [] => 0
  | (k, v) :: rest => if String.eqb k key then v else get0 key rest
  end.

(** [priority_order.get(x['priority'], 3)]. *)
Definition priority_order (p : string) : Z :=
  if String.eqb p "high" then 0
  else if String.eqb p "medium" then 1
  else if String.eqb p "low" then 2
  else 3.

(** The sort key [lambda x: priority_order.get(x['priority'], 3)]. *)
Definition rank (t : Tip) : Z := priority_order (tip_priority t).

(** [tips.sort(key=...)]: ascending in the key, equal keys keep their order. *)
Definition sort_tips (l : list Tip) : list Tip := sort_by (key_le rank) l.

Section Tips.
Context {RT : Runtime}.

Definition tip1 (avg_hours_per_day : Q) : Tip :=
  {| tip_title := "Set Daily Screen Time Limits";
     tip_description :=
       "You're averaging " ++ format_fixed 1 avg_hours_per_day
       ++ " hours per day. Try setting a daily limit (e.g., 4-5 hours) and use your phone's built-in screen time controls to enforce it.";
     tip_priority := "high";
     tip_category := "general" |}.

Definition tip2 (doomscroll_percentage doomscroll_hours : Q) : Tip :=
  {| tip_title := "Reduce Social Media Consumption";
     tip_description :=
       "Social media accounts for " ++ format_fixed 0 doomscroll_percentage
       ++ "% of your screen time (" ++ format_fixed 1 doomscroll_hours
       ++ " hours). Try: (1) Delete apps from your home screen, (2) Set app timers, (3) Use grayscale mode to reduce appeal.";
     tip_priority := "high";
     tip_category := "social_media" |}.

Definition tip3 (avg_pickups : Q) : Tip :=
  {| tip_title := "Reduce Phone Pickups";
     tip_description :=
       "You're picking up your phone " ++ format_fixed 0 avg_pickups
       ++ " times per day on average. Try: (1) Turn off non-essential notifications, (2) Keep your phone in another room, (3) Use 'Do Not Disturb' during focused work.";
     tip_priority := "high";
     tip_category := "pickups" |}.

Definition tip4 (top_app : string) (top_hours : Q) : Tip :=
  {| tip_title := "Limit Time on " ++ top_app;
     tip_description :=
       "You spend " ++ format_fixed 1 top_hours ++ " hours per day on " ++ top_app
       ++ ". Consider setting a daily limit for this app specifically, or try replacing some of this time with offline activities.";
     tip_priority := "medium";
     tip_category := "specific_app" |}.

Definition tip5 : Tip :=
  {| tip_title := "Create Phone-Free Zones";
     tip_description :=
       "Designate certain times or places as phone-free: (1) First hour after waking, (2) During meals, (3) One hour before bed. This helps break the constant checking habit.";
     tip_priority := "medium";
     tip_category := "boundaries" |}.

Definition tip6 (social_hours productivity_hours : Q) : Tip :=
  {| tip_title := "Balance Entertainment with Productivity";
     tip_description :=
       "You spend " ++ format_fixed 1 social_hours ++ " hours on social media vs "
       ++ format_fixed 1 productivity_hours
       ++ " hours on productivity. Try the '2-minute rule': when you open a social app, spend 2 minutes on a productive task first.";
     tip_priority := "medium";
     tip_category := "balance" |}.

Definition tip7 : Tip :=
  {| tip_title := "Practice Mindful Phone Use";
     tip_description :=
       "Before picking up your phone, ask yourself: 'What do I need to do?' If you can't answer, put it down. This simple pause can prevent mindless scrolling.";
     tip_priority := "low";
     tip_category := "mindfulness" |}.

Definition tip8 : Tip :=
  {| tip_title := "Review Your Progress Weekly";
     tip_description :=
       "Set aside 10 minutes each week to review your screen time data. Notice patterns: Are you using your phone more when stressed? Bored? Use this awareness to make intentional changes.";
     tip_priority := "low";
     tip_category := "tracking" |}.

(** [tips.append(t)] under [if cond]. *)
Definition append_if (cond : bool) (t : Tip) (tips : list Tip) : list Tip :=
  if cond then (tips ++ [t])%list else tips.

(** The list [tips] as it stands just before [tips.sort], that is in the
    order the eight conditions are evaluated. *)
Definition tips_appended (m : Metrics) : list Tip :=
  let avg_hours_per_day :=
    if 0 <? days_tracked m
    then (total_screen_time_hours m / inject_Z (days_tracked m))%Q else 0%Q in
  let doomscroll_hours := doomscroll_hours m in
  let doomscroll_percentage :=
    if Num.Qltb 0 (total_screen_time_hours m)
    then ((doomscroll_hours / total_screen_time_hours m) * 100)%Q else 0%Q in
  let tips := [] in
  let tips := append_if (Num.Qgeb avg_hours_per_day 6) (tip1 avg_hours_per_day) tips in
  let tips := append_if (Num.Qgeb doomscroll_percentage 40)
                (tip2 doomscroll_percentage doomscroll_hours) tips in
  let tips := append_if (Num.Qgeb (avg_pickups_per_day m) 100)
                (tip3 (avg_pickups_per_day m)) tips in
  let tips :=
    match top_apps m with
    | Some ((top_app, top_hours) :: _) =>
        append_if (Num.Qgeb top_hours 2) (tip4 top_app top_hours) tips
    | _ => tips
    end in
  let tips := append_if (Num.Qgeb avg_hours_per_day 4) tip5 tips in
  let social_hours := get0 "Social Media" (category_breakdown m) in
  let productivity_hours := get0 "Productivity" (category_breakdown m) in
  let tips :=
    append_if (Num.Qltb 0 social_hours && Num.Qltb 0 productivity_hours
               && Num.Qltb (productivity_hours * 2) social_hours)
      (tip6 social_hours productivity_hours) tips in
  let tips := (tips ++ [tip7])%list in
  let tips := (tips ++ [tip8])%list in
  tips.

Definition generate_tips (m : Metrics) (df : DataFrame) : list Tip :=
  if empty df then []
  else sort_tips (tips_appended m).

End Tips.

(** ** Aggregator *)

Section Aggregator.
Context {RT : Runtime}.

(** The non-NaT cells of a column. *)
Fixpoint present (col : list (option Timestamp)) : list Timestamp :=
  match col with
  | [] => []
  | Some t :: rest => t :: present rest
  | None :: rest => present rest
  end.

(** [Series.nunique()]: the number of distinct non-NaT cells. *)
Definition nunique (col : list (option Timestamp)) : Z :=
  Z.of_nat (length (nodup Z.eq_dec (present col))).

(** The pair of sums computed by [.agg({'time_hours': 'sum', 'pickups': 'sum'})]. *)
Definition add_totals (a b : Q * Z) : Q * Z :=
  ((fst a + fst b)%Q, snd a + snd b).

Definition row_totals (r : Row) : Q * Z :=
  (Num.nan_to_zero (time_hours r), pickups r).

(** [df.groupby('category')['time_hours'].sum().to_dict()]. *)
Definition category_sums (df : DataFrame) : list (string * Q) :=
  groupby_sum String.compare Qplus
    (map (fun r => (category r, Num.nan_to_zero (time_hours r))) df).

(** [df.groupby('date').agg(...)] with the date column formatted. *)
Definition daily_sums (df : DataFrame) : list DailyTotal :=
  map (fun g => {| dt_date := strftime_ymd (fst g);
                   dt_time_hours := fst (snd g);
                   dt_pickups := snd (snd g) |})
    (groupby_sum Z.compare add_totals
       (keyed (map (fun r => (date r, row_totals r)) df))).

(** [df['week'] = df['date'].dt.to_period('W')] followed by
    [df.groupby('week').agg(...)], the week rendered as a string under
    the column name [period]. *)
Definition weekly_sums (df : DataFrame) : list WeeklyTotal :=
  map (fun g => {| wt_period := period_str (fst g);
                   wt_time_hours := fst (snd g);
                   wt_pickups := snd (snd g) |})
    (groupby_sum Z.compare add_totals
       (keyed (map (fun r => (option_map to_period_W (date r), row_totals r)) df))).

(** [df.groupby('app')['time_hours'].sum().sort_values(ascending=False).head(10)];
    apps with equal hours keep their groupby order. *)
Definition top_apps_sums (df : DataFrame) : list (string * Q) :=
  firstn 10
    (sort_by (fun x y => Qle_bool (snd y) (snd x))
       (groupby_sum String.compare Qplus
          (keyed (map (fun r => (app r, Num.nan_to_zero (time_hours r))) df)))).

(** [{k: round(v, 2) for k, v in d.items()}]. *)
Definition round_values (d : list (string * Q)) : list (string * Q) :=
  map (fun kv => (fst kv, Num.round (snd kv) 2)) d.

Definition calculate_metrics (df : DataFrame) : Metrics :=
  if empty df then
    {| total_screen_time_hours := 0;
       total_screen_time_minutes := 0;
       doomscroll_hours := 0;
       total_pickups := 0;
       avg_pickups_per_day := 0;
       days_tracked := 0;
       category_breakdown := [];
       daily_totals := [];
       weekly_totals := [];
       top_apps := None |}
  else
    let total_minutes := Num.sum (map time_minutes df) in
    let total_hours := (total_minutes / 60)%Q in
    let social_media_df := filter (fun r => String.eqb (category r) "Social Media") df in
    let doomscroll_hours := Num.sum (map time_hours social_media_df) in
    let total_pickups := Num.sumZ (map pickups df) in
    let unique_days := nunique (map date df) in
    let avg_pickups_per_day :=
      if 0 <? unique_days then (inject_Z total_pickups / inject_Z unique_days)%Q else 0%Q in
    {| total_screen_time_hours := Num.round total_hours 2;
       total_screen_time_minutes := Num.int total_minutes;
       doomscroll_hours := Num.round doomscroll_hours 2;
       total_pickups := total_pickups;
       avg_pickups_per_day := Num.round avg_pickups_per_day 2;
       days_tracked := unique_days;
       category_breakdown := round_values (category_sums df);
       daily_totals := daily_sums df;
       weekly_totals := weekly_sums df;
       top_apps := Some (round_values (top_apps_sums df)) |}.

(** ** Pipeline *)

Definition analyze_entries (entries : list RawEntry) : result Analysis :=
  df <- process_entries entries ;;
  let metrics := calculate_metrics df in
  let chronic_score := calculate_chronic_score metrics in
  let tips := generate_tips metrics df in
  Ok {| metrics := metrics;
        chronic_score := chronic_score;
        tips := tips;
        processed_entries_count := Z.of_nat (length df) |}.

End Aggregator.

(** ** HTTP layer ([api/index.py]) *)

(** Python built-ins the endpoints format their messages with. *)
Class Builtins : Type := {
  (** [str(e)] of a caught exception. *)
  str_exn : exn -> string;
  (** [str(n)] of an integer, as interpolated by an f-string. *)
  str_int : Z -> string
}.

(** A Python [dict] with string keys, in insertion order. *)
Module Dict.

Fixpoint get {V : Type} (k : string) (d : list (string * V)) : option V :=
  match d with
  | [] => None
  | (k', v) :: rest => if String.eqb k' k then Some v else get k rest
  end.

(** [k in d]. *)
Definition mem {V : Type} (k : string) (d : list (string * V)) : bool :=
  match get k d with Some _ => true | None => false end.

(** [d[k] = v]: overwrite in place, or append a new key. *)
Fixpoint set {V : Type} (k : string) (v : V) (d : list (string * V)) : list (string * V) :=
  match d with
  | [] => [(k, v)]
  | (k', v') :: rest =>
      if String.eqb k' k then (k', v) :: rest else (k', v') :: set k v rest
  end.

End Dict.

(** The module-level [_storage]: user id to entry history. *)
Definition Storage : Type := list (string * list RawEntry).

(** [_storage = {"default_user": []}]. *)
Definition initial_storage : Storage := [("default_user", [])].

(** [_storage[user_id]] for a key known to be present. *)
Definition history (user_id : string) (storage : Storage) : list RawEntry :=
  match Dict.get user_id storage with Some h => h | None => [] end.

(** A [ScreenTimeEntry] as the endpoint receives it. *)
Record ScreenTimeEntry : Type := {
  ste_date : string;
  ste_app : string;
  ste_time_minutes : Q;
  ste_category : option string;
  ste_pickups : option Z
}.

(** [entry.model_dump()]: all five keys are present. *)
Definition model_dump (entry : ScreenTimeEntry) : RawEntry :=
  {| raw_date := Some (ste_date entry);
     raw_app := Some (ste_app entry);
     raw_time_minutes := VNum (ste_time_minutes entry);
     raw_category := ste_category entry;
     raw_pickups := ste_pickups entry |}.

Record EntriesRequest : Type := {
  req_entries : list ScreenTimeEntry;
  req_user_id : option string
}.

Record HTTPException : Type := {
  status_code : Z;
  detail : string
}.

(** The dict returned by [submit_entries]. *)
Record SubmitResponse : Type := {
  sr_message : string;
  sr_total_entries : Z;
  sr_metrics : Metrics;
  sr_chronic_score : ChronicScore;
  sr_tips : list Tip
}.

(** The dict returned by [get_analytics]: either the fixed "No entries found"
    dict (empty metrics, score 0, level "Unknown", no tips, count 0) or the
    analytics of the stored history. *)
Inductive AnalyticsResponse : Type :=
| NoEntriesFound
| Analytics (a : Analysis) (total_entries : Z).

Section HttpLayer.
Context {RT : Runtime} {BI : Builtins}.

(** [request.user_id or "default_user"]. *)
Definition effective_user (request : EntriesRequest) : string :=
  match req_user_id request with
  | Some u => if String.eqb u "" then "default_user" else u
  | None => "default_user"
  end.

(** [POST /api/entries].  The history is extended before the analysis runs;
    any exception of the analysis becomes a 400. *)
Definition submit_entries (storage : Storage) (request : EntriesRequest)
  : Storage * (SubmitResponse + HTTPException) :=
  let user_id := effective_user request in
  let entries_dict := map model_dump (req_entries request) in
  let storage := if Dict.mem user_id storage then storage else Dict.set user_id [] storage in
  let storage := Dict.set user_id (history user_id storage ++ entries_dict)%list storage in
  match analyze_entries (history user_id storage) with
  | Ok result =>
      (storage,
       inl {| sr_message :=
                "Successfully added "
                ++ str_int (Z.of_nat (length (req_entries request))) ++ " entries";
              sr_total_entries := Z.of_nat (length (history user_id storage));
              sr_metrics := metrics result;
              sr_chronic_score := chronic_score result;
              sr_tips := tips result |})
  | Raise e =>
      (storage,
       inr {| status_code := 400;
              detail := "Error processing entries: " ++ str_exn e |})
  end.

(** [GET /api/analytics]; the storage is only read. *)
Definition get_analytics (storage : Storage) (user_id : string)
  : AnalyticsResponse + HTTPException :=
  if negb (Dict.mem user_id storage) || (length (history user_id storage) =? 0)%nat
  then inl NoEntriesFound
  else
    match analyze_entries (history user_id storage) with
    | Ok result => inl (Analytics result (Z.of_nat (length (history user_id storage))))
    | Raise e =>
        inr {| status_code := 500;
               detail := "Error calculating analytics: " ++ str_exn e |}
    end.

(** [DELETE /api/entries]: the new storage and the response message. *)
Definition clear_entries (storage : Storage) (user_id : string) : Storage * string :=
  (if Dict.mem user_id storage then Dict.set user_id [] storage else storage,
   "Cleared all entries for user: " ++ user_id).

End HttpLayer.

(** ** A runtime for ISO dates and plain decimal literals

    An instance of the library boundary that agrees with pandas and Python on
    the inputs the HTTP layer lets through ([YYYY-MM-DD] dates, decimal
    numbers); it makes the module executable on concrete entries. *)

Module Reference.

Definition digit (c : ascii) : option Z :=
  let n := N_of_ascii c in
  if ((48 <=? n) && (n <=? 57))%N then Some (Z.of_N (n - 48)) else None.

(** A non-empty run of decimal digits, read with [acc] as the value so far. *)
Fixpoint digits (s : string) (acc : Z) : option Z :=
  match s with
  | EmptyString => None
  | String c EmptyString => option_map (fun d => 10 * acc + d) (digit c)
  | String c rest =>
      match digit c with
      | Some d => digits rest (10 * acc + d)
      | None => None
      end
  end.

Definition is_leap (y : Z) : bool :=
  ((y mod 4 =? 0) && negb (y mod 100 =? 0)) || (y mod 400 =? 0).

Definition days_in_month (y m : Z) : Z :=
  if m =? 2 then (if is_leap y then 29 else 28)
  else if (m =? 4) || (m =? 6) || (m =? 9) || (m =? 11) then 30
  else 31.

(** Days from 1970-01-01 to the given civil date. *)
Definition days_from_civil (y m d : Z) : Z :=
  let y := if m <=? 2 then y - 1 else y in
  let era := y / 400 in
  let yoe := y - era * 400 in
  let doy := (153 * (if 2 <? m then m - 3 else m + 9) + 2) / 5 + d - 1 in
  let doe := yoe * 365 + yoe / 4 - yoe / 100 + doy in
  era * 146097 + doe - 719468.

(** The civil date of a day count. *)
Definition civil_from_days (z : Z) : Z * Z * Z :=
  let z := z + 719468 in
  let era := z / 146097 in
  let doe := z - era * 146097 in
  let yoe := (doe - doe / 1460 + doe / 36524 - doe / 146096) / 365 in
  let doy := doe - (365 * yoe + yoe / 4 - yoe / 100) in
  let mp := (5 * doy + 2) / 153 in
  let d := doy - (153 * mp + 2) / 5 + 1 in
  let m := if mp <? 10 then mp + 3 else mp - 9 in
  let y := yoe + era * 400 in
  (if m <=? 2 then y + 1 else y, m, d).

Definition ns_per_day : Z := 86400 * 1000000000.

Definition iso_date (s : string) : option Timestamp :=
  if (String.length s =? 10)%nat
     && String.eqb (substring 4 1 s) "-" && String.eqb (substring 7 1 s) "-"
  then
    match digits (substring 0 4 s) 0, digits (substring 5 2 s) 0, digits (substring 8 2 s) 0 with
    | Some y, Some m, Some d =>
        if (1 <=? m) && (m <=? 12) && (1 <=? d) && (d <=? days_in_month y m)
        then Some (days_from_civil y m d * ns_per_day)
        else None
    | _, _, _ => None
    end
  else None.

Definition show_nat (n : Z) : string :=
  NilZero.string_of_uint (N.to_uint (Z.to_N n)).

(** [n] printed in at least [width] digits, zero-padded on the left. *)
Fixpoint zero_pad (fuel : nat) (width : nat) (s : string) : string :=
  match fuel with
  | O => s
  | S fuel' => if (String.length s <? width)%nat then zero_pad fuel' width (String "0" s) else s
  end.

Definition show_padded (width : nat) (n : Z) : string :=
  zero_pad width width (show_nat n).

Definition show_day (day : Z) : string :=
  let '(y, m, d) := civil_from_days day in
  show_padded 4 y ++ "-" ++ show_padded 2 m ++ "-" ++ show_padded 2 d.

Definition ymd (t : Timestamp) : string := show_day (t / ns_per_day).

(** Weeks run Monday to Sunday; 1970-01-01 was a Thursday. *)
Definition week_of (t : Timestamp) : Z := (t / ns_per_day + 3) / 7.

Definition week_str (w : Z) : string :=
  show_day (7 * w - 3) ++ "/" ++ show_day (7 * w + 3).

(** Unsigned decimal literal [ddd] or [ddd.ddd]. *)
Definition decimal (s : string) : option Q :=
  match index 0 "." s with
  | None => option_map inject_Z (digits s 0)
  | Some i =>
      let frac := substring (S i) (String.length s - S i) s in
      match digits (substring 0 i s) 0, digits frac 0 with
      | Some n, Some f =>
          Some (inject_Z n + inject_Z f / inject_Z (10 ^ Z.of_nat (String.length frac)))%Q
      | _, _ => None
      end
  end.

Definition fixed (ndigits : nat) (x : Q) : string :=
  let scale := 10 ^ Z.of_nat ndigits in
  let r := Num.round_half_even (x * inject_Z scale) in
  let a := Z.abs r in
  let sign := if r <? 0 then "-" else "" in
  match ndigits with
  | O => sign ++ show_nat a
  | _ => sign ++ show_nat (a / scale) ++ "." ++ show_padded ndigits (a mod scale)
  end.

#[export] Instance runtime : Runtime := {
  parse_datetime := iso_date;
  parse_numeric := decimal;
  strftime_ymd := ymd;
  to_period_W := week_of;
  period_str := week_str;
  format_fixed := fixed
}.

(** [str(n)] of an integer. *)
Definition show_int (n : Z) : string :=
  if n <? 0 then "-" ++ show_nat (Z.abs n) else show_nat n.

(** The exception's class name stands for its message. *)
Definition exn_name (e : exn) : string :=
  match e with
  | ValueError => "ValueError"
  | AttributeError => "AttributeError"
  end.

#[export] Instance builtins : Builtins := {
  str_exn := exn_name;
  str_int := show_int
}.

End Reference.

(** ** Vocabulary of the properties *)

(** Some pattern of the list occurs in the name. *)
Definition matches (app_lower : string) (patterns : list string) : Prop :=
  exists pattern pre post,
    In pattern patterns /\ app_lower = (pre ++ pattern ++ post)%string.

(** The taxonomy names followed by the catch-all. *)
Definition valid_categories : list string :=
  (map fst CATEGORY_PATTERNS ++ ["Other"])%list.

(** [sum(d.values())]. *)
Definition sum_values (d : list (string * Q)) : Q :=
  fold_right (fun kv acc => snd kv + acc)%Q 0%Q d.

(** The category tags of the tips of conditions 1 to 8, in evaluation order. *)
Definition condition_order : list string :=
  ["general"; "social_media"; "pickups"; "specific_app"; "boundaries";
   "balance"; "mindfulness"; "tracking"].

Definition has_priority (p : string) (t : Tip) : bool :=
  String.eqb (tip_priority t) p.


(** The pickups rule of the normalizer's step (4): default to 0, then raise a
    0 to 1 when [time_minutes > 0]. *)
Definition pickups_as_normalized (provided : option Z) (minutes : Q) : Z :=
  let p := match provided with Some p => p | None => 0 end in
  if Num.Qltb 0 minutes && (p =? 0) then 1 else p.

(** ** Vocabulary of the further properties *)

(** [d.get(category, [])] on the taxonomy. *)
Definition patterns_of (category : string) : list string :=
  match Dict.get category CATEGORY_PATTERNS with Some ps => ps | None => [] end.

(** Some tip of the list carries the category tag [c]. *)
Definition has_tip (c : string) (l : list Tip) : Prop :=
  exists t, In t l /\ tip_category t = c.

(** The zero-state dict of [calculate_metrics]. *)
Definition zero_metrics : Metrics :=
  {| total_screen_time_hours := 0;
     total_screen_time_minutes := 0;
     doomscroll_hours := 0;
     total_pickups := 0;
     avg_pickups_per_day := 0;
     days_tracked := 0;
     category_breakdown := [];
     daily_totals := [];
     weekly_totals := [];
     top_apps := None |}.

Section RowWise.
Context {RT : Runtime}.

(** The date cell of an entry is None or a string that parses. *)
Definition date_ok (e : RawEntry) : bool :=
  match raw_date e with
  | None => true
  | Some s => notna (parse_datetime s)
  end.

(** The entry has a category of its own or an app name to derive one from. *)
Definition categorizable (e : RawEntry) : bool :=
  notna (raw_category e) || notna (raw_app e).

(** The entry has a date, an app and a numeric time. *)
Definition complete (e : RawEntry) : bool :=
  notna (raw_date e) && notna (raw_app e) && notna (to_numeric (raw_time_minutes e)).

Definition parsed_date (e : RawEntry) : option Timestamp :=
  match raw_date e with
  | None => None
  | Some s => parse_datetime s
  end.

(** The row an entry turns into when nothing raises. *)
Definition row_of (e : RawEntry) : Row :=
  let minutes := to_numeric (raw_time_minutes e) in
  {| date := parsed_date e;
     app := raw_app e;
     time_minutes := minutes;
     category :=
       match raw_category e, raw_app e with
       | Some c, _ => c
       | None, Some a => auto_categorize_app a
       | None, None => ""
       end;
     pickups := pickups_as_normalized (raw_pickups e) (Num.nan_to_zero minutes);
     time_hours := option_map (fun t => t / 60)%Q minutes |}.

End RowWise.



Section HistoryInvariant.
Context {RT : Runtime}.


End HistoryInvariant.

(** ** Sample inputs *)

Module Samples.

Definition entry (d a : string) (t : Q) (c : option string) (p : option Z) : RawEntry :=
  {| raw_date := Some d; raw_app := Some a; raw_time_minutes := VNum t;
     raw_category := c; raw_pickups := p |}.

(** The three same-day entries of the documented scenario. *)
Definition scenario : list RawEntry :=
  [ entry "2024-01-20" "Instagram" 120 None (Some 15);
    entry "2024-01-20" "TikTok" 90 None (Some 20);
    entry "2024-01-20" "Gmail" 30 None (Some 5) ].

Definition bad_date : RawEntry :=
  entry "not-a-date" "Instagram" 30 None (Some 3).

Definition good : RawEntry :=
  entry "2024-01-20" "Gmail" 30 None (Some 5).

Definition non_numeric : RawEntry :=
  {| raw_date := Some "2024-01-20"; raw_app := Some "Gmail";
     raw_time_minutes := VStr "abc"; raw_category := None; raw_pickups := None |}.


Definition free_text_category : RawEntry :=
  entry "2024-01-19" "CustomApp" 45 (Some "Banana") (Some 5).

(** One retained record of thirty and a half minutes. *)
Definition half_minute : DataFrame :=
  [ {| date := Some 0; app := Some "Gmail"; time_minutes := Some (61 # 2);
       category := "Productivity"; pickups := 1;
       time_hours := Some ((61 # 2) / 60)%Q |} ].

(** Six hours of screen time, a third of it on social media, over two days
    and over one day. *)
Definition six_hours (days : Z) : Metrics :=
  {| total_screen_time_hours := 6;
     total_screen_time_minutes := 360;
     doomscroll_hours := 2;
     total_pickups := 80;
     avg_pickups_per_day := 40;
     days_tracked := days;
     category_breakdown := [("Productivity", 4%Q); ("Social Media", 2%Q)];
     daily_totals := [];
     weekly_totals := [];
     top_apps := Some [("Gmail", 4%Q); ("Instagram", 2%Q)] |}.

(** A request of one well-formed entry for the default user, and one whose
    date does not parse for the user "ann". *)
Definition good_request : EntriesRequest :=
  {| req_entries :=
       [ {| ste_date := "2024-01-20"; ste_app := "Gmail"; ste_time_minutes := 30;
            ste_category := None; ste_pickups := Some 5 |} ];
     req_user_id := None |}.

Definition bad_request : EntriesRequest :=
  {| req_entries :=
       [ {| ste_date := "not-a-date"; ste_app := "Gmail"; ste_time_minutes := 30;
            ste_category := None; ste_pickups := Some 5 |} ];
     req_user_id := Some "ann" |}.

End Samples.

(** * Properties *)

(** ** Python strings *)

Lemma startswith_spec (p s : string) :
  Str.startswith p s = true <-> exists post, s = p ++ post.
Proof.
  revert s; induction p as [|a p IH]; intros s; simpl.
  - split; [intros _; now exists s | reflexivity].
  - destruct s as [|b s].
    + split; [discriminate | intros [post H]; discriminate].
    + rewrite andb_true_iff, Ascii.eqb_eq, IH. split.
      * intros [-> [post ->]]. now exists post.
      * intros [post H]. injection H as -> ->. split; [reflexivity | now exists post].
Qed.

Lemma str_in_spec (p s : string) :
  Str.str_in p s = true <-> exists pre post, s = pre ++ p ++ post.
Proof.
  induction s as [|c r IH]; simpl.
  - rewrite startswith_spec. split.
    + intros [post H]. exists EmptyString, post. exact H.
    + intros [pre [post H]]. destruct pre; simpl in H.
      * now exists post.
      * discriminate.
  - rewrite orb_true_iff, IH, (startswith_spec p (String c r)). split.
    + intros [[post H] | [pre [post H]]].
      * exists EmptyString, post. exact H.
      * exists (String c pre), post. simpl. now rewrite H.
    + intros [pre [post H]]. destruct pre as [|a pre]; simpl in H.
      * left. now exists post.
      * right. injection H as _ H. now exists pre, post.
Qed.


(** Lower-casing touches the upper-case letters only. *)
Lemma lower_ascii_fixed (c : ascii) :
  (N_of_ascii c < 65 \/ 90 < N_of_ascii c)%N -> Str.lower_ascii c = c.
Proof.
  intros H. unfold Str.lower_ascii.
  destruct (65 <=? N_of_ascii c)%N eqn:E1; [|reflexivity].
  destruct (N_of_ascii c <=? 90)%N eqn:E2; [|reflexivity].
  apply N.leb_le in E1, E2. lia.
Qed.

(** ** Categorizer *)

Lemma scan_patterns_spec (app_lower : string) (patterns : list string) :
  scan_patterns app_lower patterns = true <-> matches app_lower patterns.
Proof.
  unfold matches. induction patterns as [|p ps IH]; simpl.
  - split; [discriminate | intros (? & ? & ? & [] & _)].
  - destruct (Str.str_in p app_lower) eqn:E.
    + split; [intros _ | reflexivity].
      apply str_in_spec in E. destruct E as (pre & post & E).
      exists p, pre, post. auto.
    + rewrite IH. split.
      * intros (q & pre & post & Hin & E'). exists q, pre, post. auto.
      * intros (q & pre & post & [<- | Hin] & E').
        -- assert (Str.str_in p app_lower = true) as E2
             by (apply str_in_spec; now exists pre, post).
           congruence.
        -- exists q, pre, post. auto.
Qed.


Lemma scan_categories_in (app_lower : string) (items : list (string * list string)) :
  In (scan_categories app_lower items) (map fst items ++ ["Other"])%list.
Proof.
  induction items as [|[c ps] items IH]; simpl.
  - now left.
  - destruct (scan_patterns app_lower ps); [now left | now right].
Qed.

Lemma auto_categorize_app_valid (app_name : string) :
  In (auto_categorize_app app_name) valid_categories.
Proof. apply scan_categories_in. Qed.




Example categorize_upper_case : auto_categorize_app "INSTAGRAM" = "Social Media".
Proof. reflexivity. Qed.

Example categorize_unknown : auto_categorize_app "UnknownApp" = "Other".
Proof. reflexivity. Qed.

Example categorize_two_matches : auto_categorize_app "Netflix Game" = "Entertainment".
Proof. reflexivity. Qed.


(** ** Numbers *)

Lemma Qltb_spec (x y : Q) : BoolSpec (x < y)%Q (y <= x)%Q (Num.Qltb x y).
Proof.
  unfold Num.Qltb. destruct (Qle_bool y x) eqn:E; constructor.
  - now apply Qle_bool_iff.
  - apply Qnot_le_lt. intros H. apply Qle_bool_iff in H. congruence.
Qed.

Lemma Qgeb_spec (x y : Q) : BoolSpec (y <= x)%Q (x < y)%Q (Num.Qgeb x y).
Proof.
  unfold Num.Qgeb. destruct (Qle_bool y x) eqn:E; constructor.
  - now apply Qle_bool_iff.
  - apply Qnot_le_lt. intros H. apply Qle_bool_iff in H. congruence.
Qed.

(** Case analysis on every rational comparison in the goal. *)
Ltac qcases :=
  repeat match goal with
         | |- context [Num.Qltb ?a ?b] => destruct (Qltb_spec a b)
         | |- context [Num.Qgeb ?a ?b] => destruct (Qgeb_spec a b)
         end.

(** Rounding to an integer moves a number by at most one half. *)
Lemma round_half_even_error (x : Q) :
  (x - (1 # 2) <= inject_Z (Num.round_half_even x) <= x + (1 # 2))%Q.
Proof.
  unfold Num.round_half_even.
  pose proof (Qfloor_le x) as Hlo. pose proof (Qlt_floor x) as Hhi.
  rewrite inject_Z_plus in Hhi. change (inject_Z 1) with 1%Q in Hhi.
  destruct (Qcompare_spec (x - inject_Z (Qfloor x)) (1 # 2)) as [He | Hl | Hg].
  - destruct (Z.even (Qfloor x)).
    + split; lra.
    + rewrite inject_Z_plus. change (inject_Z 1) with 1%Q. split; lra.
  - split; lra.
  - rewrite inject_Z_plus. change (inject_Z 1) with 1%Q. split; lra.
Qed.

(** [round(x, 2)] is a whole number of hundredths within 0.005 of [x]. *)
Lemma round2_error (x : Q) :
  (Qabs (Num.round x 2 - x) <= 1 # 200)%Q.
Proof.
  apply Qabs_Qle_condition. unfold Num.round.
  change (inject_Z (10 ^ Z.of_nat 2)) with 100%Q.
  pose proof (round_half_even_error (x * 100)) as [Hlo Hhi].
  set (k := inject_Z (Num.round_half_even (x * 100))) in *.
  unfold Qdiv. setoid_replace (/ 100)%Q with (1 # 100)%Q by reflexivity.
  split; lra.
Qed.



(** ** Exceptions *)

Lemma bind_ok_inv {A B : Type} (m : result A) (k : A -> result B) (b : B) :
  bind m k = Ok b -> exists a, m = Ok a /\ k a = Ok b.
Proof. destruct m as [a|e]; simpl; [now exists a | discriminate]. Qed.

Lemma mapM_ok_In {A B : Type} (f : A -> result B) (l : list A) (bs : list B) (b : B) :
  mapM f l = Ok bs -> In b bs -> exists a, In a l /\ f a = Ok b.
Proof.
  revert bs. induction l as [|a l IH]; intros bs H Hin; simpl in H.
  - injection H as <-. contradiction.
  - destruct (f a) as [b0|] eqn:Ea; simpl in H; [|discriminate].
    destruct (mapM f l) as [bs0|] eqn:El; simpl in H; [|discriminate].
    injection H as <-. destruct Hin as [<- | Hin].
    + exists a. split; [now left | assumption].
    + destruct (IH bs0 eq_refl Hin) as (a' & Ha' & Hf). exists a'. split; [now right | assumption].
Qed.

Lemma mapM_map_combine {A B C : Type} (f : B -> result C) (g : A -> B)
      (l : list A) (cs : list C) (a : A) (c : C) :
  mapM f (map g l) = Ok cs -> In (a, c) (combine l cs) -> f (g a) = Ok c.
Proof.
  revert cs. induction l as [|a0 l IH]; intros cs H Hin; simpl in *.
  - contradiction.
  - destruct (f (g a0)) as [c0|] eqn:Ea; simpl in H; [|discriminate].
    destruct (mapM f (map g l)) as [cs0|] eqn:El; simpl in H; [|discriminate].
    injection H as <-. simpl in Hin. destruct Hin as [Heq | Hin].
    + injection Heq as <- <-. assumption.
    + now apply (IH cs0).
Qed.

(** A pass whose only exception is [x] raises [x] as soon as one cell does. *)
Lemma mapM_raise {A B : Type} (f : A -> result B) (l : list A) (a : A) (x : exn) :
  (forall a' e, f a' = Raise e -> e = x) ->
  In a l -> f a = Raise x -> mapM f l = Raise x.
Proof.
  intros Honly. induction l as [|a0 l IH]; intros Hin Hf; simpl in *.
  - contradiction.
  - destruct (f a0) as [b0|e0] eqn:Ea; simpl.
    + destruct Hin as [-> | Hin]; [congruence|].
      now rewrite (IH Hin Hf).
    + now rewrite (Honly _ _ Ea).
Qed.

(** ** Normalizer *)

Section NormalizerProps.
Context {RT : Runtime}.

Lemma to_datetime_cell_raises (c : option string) (e : exn) :
  to_datetime_cell c = Raise e -> e = ValueError.
Proof.
  unfold to_datetime_cell. destruct c as [s|]; [|discriminate].
  destruct (parse_datetime s); [discriminate | congruence].
Qed.

Lemma process_entries_cons (e0 : RawEntry) (es : list RawEntry) :
  process_entries (e0 :: es) =
  (dates <- to_datetime (map raw_date (e0 :: es)) ;;
   rows <- mapM normalize_row (combine (e0 :: es) dates) ;;
   Ok (dropna rows)).
Proof. reflexivity. Qed.

(** Every row of the result is the normalization of one input entry, and its
    date, app and time cells are populated. *)
Lemma process_entries_ok_inv (entries : list RawEntry) (df : DataFrame) (r : Row) :
  process_entries entries = Ok df -> In r df ->
  exists e d,
    In e entries
    /\ to_datetime_cell (raw_date e) = Ok d
    /\ normalize_row (e, d) = Ok r
    /\ notna (date r) = true /\ notna (app r) = true /\ notna (time_minutes r) = true.
Proof.
  intros H Hin. destruct entries as [|e0 es].
  - cbn in H. injection H as <-. contradiction.
  - rewrite process_entries_cons in H.
    apply bind_ok_inv in H. destruct H as (dates & Ed & H).
    apply bind_ok_inv in H. destruct H as (rows & Er & H).
    injection H as <-. unfold dropna in Hin. apply filter_In in Hin.
    destruct Hin as [Hin Hcond].
    apply andb_prop in Hcond. destruct Hcond as [Hcond Ht].
    apply andb_prop in Hcond. destruct Hcond as [Hd Ha].
    destruct (mapM_ok_In _ _ _ _ Er Hin) as ([e d] & Hed & Hrow).
    exists e, d. repeat split; auto.
    + exact (in_combine_l _ _ _ _ Hed).
    + exact (mapM_map_combine to_datetime_cell raw_date _ _ _ _ Ed Hed).
Qed.

(** The cells of a normalized row, read off the entry. *)
Lemma normalize_row_ok (e : RawEntry) (d : option Timestamp) (r : Row) :
  normalize_row (e, d) = Ok r ->
  exists cat,
    categorize_row e = Ok cat
    /\ r = {| date := d;
              app := raw_app e;
              time_minutes := to_numeric (raw_time_minutes e);
              category := cat;
              pickups := (let pk := fillna0 (raw_pickups e) in
                          if positive (to_numeric (raw_time_minutes e)) && (pk =? 0)
                          then 1 else pk);
              time_hours := option_map (fun t => t / 60)%Q
                              (to_numeric (raw_time_minutes e)) |}.
Proof.
  unfold normalize_row. destruct (categorize_row e) as [cat|] eqn:Ec; simpl; [|discriminate].
  intros H. injection H as <-. now exists cat.
Qed.

(** Every row of the result stems from an input entry whose cells it carries. *)
Lemma process_entries_record_of (entries : list RawEntry) (df : DataFrame) (r : Row) :
  process_entries entries = Ok df -> In r df ->
  exists e d, In e entries /\ record_of e r /\ normalize_row (e, d) = Ok r.
Proof.
  intros H Hin.
  destruct (process_entries_ok_inv _ _ _ H Hin) as (e & d & He & Hd & Hrow & _).
  exists e, d. split; [assumption|]. split; [|assumption].
  destruct (normalize_row_ok _ _ _ Hrow) as (cat & _ & ->).
  repeat split. exact Hd.
Qed.

(** Hours are minutes over sixty on every row of the result. *)
Lemma process_entries_time_hours (entries : list RawEntry) (df : DataFrame) :
  process_entries entries = Ok df ->
  Forall (fun r => time_hours r = option_map (fun t => t / 60)%Q (time_minutes r)) df.
Proof.
  intros H. apply Forall_forall. intros r Hin.
  destruct (process_entries_ok_inv _ _ _ H Hin) as (e & d & _ & _ & Hrow & _).
  destruct (normalize_row_ok _ _ _ Hrow) as (cat & _ & ->). reflexivity.
Qed.

(** C1. An entry whose date string does not parse is not dropped: whatever
    else the input holds, [process_entries] raises ValueError for the whole
    call (the date column is converted with the default [errors='raise'],
    unlike the [time_minutes] column). *)
Theorem process_entries_bad_date_raises
        (entries : list RawEntry) (e : RawEntry) (s : string) :
  In e entries -> raw_date e = Some s -> parse_datetime s = None ->
  process_entries entries = Raise ValueError.
Proof.
  intros Hin Hd Hp. destruct entries as [|e0 es]; [contradiction|].
  rewrite process_entries_cons. unfold to_datetime.
  rewrite (mapM_raise to_datetime_cell (map raw_date (e0 :: es)) (Some s) ValueError).
  - reflexivity.
  - intros c x. apply to_datetime_cell_raises.
  - rewrite <- Hd. now apply in_map.
  - simpl. now rewrite Hp.
Qed.


(** C6 (amended). On every retained record the category is the caller's
    string, kept verbatim, when the entry carries one; only when it carries
    none is the category computed from the app name, and then it is one of
    the eight taxonomy names or "Other". *)
Theorem process_entries_category (entries : list RawEntry) (df : DataFrame) (r : Row) :
  process_entries entries = Ok df -> In r df ->
  exists e,
    In e entries
    /\ record_of e r
    /\ match raw_category e with
       | Some c => category r = c
       | None =>
           exists a, raw_app e = Some a
                     /\ category r = auto_categorize_app a
                     /\ In (category r) valid_categories
       end.
Proof.
  intros H Hin.
  destruct (process_entries_record_of _ _ _ H Hin) as (e & d & He & Hrec & Hrow).
  destruct (normalize_row_ok _ _ _ Hrow) as (cat & Hcat & Hr).
  exists e. split; [assumption|]. split; [assumption|].
  rewrite Hr. cbn [category]. clear Hr Hrec.
  unfold categorize_row in Hcat.
  destruct (raw_category e) as [c|]; [congruence|].
  destruct (raw_app e) as [a|]; [|discriminate].
  injection Hcat as <-. exists a. repeat split. apply auto_categorize_app_valid.
Qed.

End NormalizerProps.

(** ** Scorer *)

Lemma time_score_values (m : Metrics) : In (time_score m) [0; 10; 20; 30; 40].
Proof. unfold time_score. qcases; simpl; auto 6. Qed.

Lemma doomscroll_score_values (m : Metrics) : In (doomscroll_score m) [0; 10; 20; 30].
Proof. unfold doomscroll_score. qcases; simpl; auto 6. Qed.

Lemma pickup_score_values (m : Metrics) : In (pickup_score m) [0; 10; 20; 30].
Proof. unfold pickup_score. qcases; simpl; auto 6. Qed.

(** A value drawn from a list of multiples of ten up to [10 * n]. *)
Lemma tens_of_In (x n : Z) (l : list Z) :
  In x l -> Forall (fun y => exists k, y = 10 * k /\ 0 <= k <= n) l ->
  exists k, x = 10 * k /\ 0 <= k <= n.
Proof. intros Hin Hall. rewrite Forall_forall in Hall. now apply Hall. Qed.

Lemma time_score_tens (m : Metrics) : exists k, time_score m = 10 * k /\ 0 <= k <= 4.
Proof.
  apply (tens_of_In _ _ _ (time_score_values m)).
  repeat constructor; [exists 0 | exists 1 | exists 2 | exists 3 | exists 4]; lia.
Qed.

Lemma doomscroll_score_tens (m : Metrics) :
  exists k, doomscroll_score m = 10 * k /\ 0 <= k <= 3.
Proof.
  apply (tens_of_In _ _ _ (doomscroll_score_values m)).
  repeat constructor; [exists 0 | exists 1 | exists 2 | exists 3]; lia.
Qed.

Lemma pickup_score_tens (m : Metrics) : exists k, pickup_score m = 10 * k /\ 0 <= k <= 3.
Proof.
  apply (tens_of_In _ _ _ (pickup_score_values m)).
  repeat constructor; [exists 0 | exists 1 | exists 2 | exists 3]; lia.
Qed.

Lemma time_score_monotone (m1 m2 : Metrics) :
  (avg_hours_per_day m1 <= avg_hours_per_day m2)%Q -> time_score m1 <= time_score m2.
Proof. intros H. unfold time_score. qcases; try lia; lra. Qed.

Lemma doomscroll_score_monotone (m1 m2 : Metrics) :
  (doomscroll_ratio m1 <= doomscroll_ratio m2)%Q -> doomscroll_score m1 <= doomscroll_score m2.
Proof. intros H. unfold doomscroll_score. qcases; try lia; lra. Qed.

Lemma pickup_score_monotone (m1 m2 : Metrics) :
  (avg_pickups_per_day m1 <= avg_pickups_per_day m2)%Q -> pickup_score m1 <= pickup_score m2.
Proof. intros H. unfold pickup_score. qcases; try lia; lra. Qed.

Lemma score_tracked (m : Metrics) :
  days_tracked m <> 0 -> score (calculate_chronic_score m) = total_score m.
Proof.
  intros H. unfold calculate_chronic_score.
  destruct (Z.eqb_spec (days_tracked m) 0); [contradiction | reflexivity].
Qed.

(** C7. Between two metrics with [days_tracked > 0] that agree on two of the
    factors avg_hours_per_day, doomscroll_ratio and avg_pickups_per_day, the
    one whose third factor is at least as large has a total score at least
    as large. *)
Theorem chronic_score_monotone (m1 m2 : Metrics) :
  0 < days_tracked m1 -> 0 < days_tracked m2 ->
  ((avg_hours_per_day m1 <= avg_hours_per_day m2
    /\ doomscroll_ratio m1 == doomscroll_ratio m2
    /\ avg_pickups_per_day m1 == avg_pickups_per_day m2)
   \/ (avg_hours_per_day m1 == avg_hours_per_day m2
       /\ doomscroll_ratio m1 <= doomscroll_ratio m2
       /\ avg_pickups_per_day m1 == avg_pickups_per_day m2)
   \/ (avg_hours_per_day m1 == avg_hours_per_day m2
       /\ doomscroll_ratio m1 == doomscroll_ratio m2
       /\ avg_pickups_per_day m1 <= avg_pickups_per_day m2))%Q ->
  score (calculate_chronic_score m1) <= score (calculate_chronic_score m2).
Proof.
  intros Hd1 Hd2 Hcase.
  rewrite !score_tracked by lia. unfold total_score.
  assert (avg_hours_per_day m1 <= avg_hours_per_day m2
          /\ doomscroll_ratio m1 <= doomscroll_ratio m2
          /\ avg_pickups_per_day m1 <= avg_pickups_per_day m2)%Q as (Hh & Hr & Hp).
  { destruct Hcase as [(H1 & H2 & H3) | [(H1 & H2 & H3) | (H1 & H2 & H3)]];
      repeat split; lra. }
  pose proof (time_score_monotone _ _ Hh).
  pose proof (doomscroll_score_monotone _ _ Hr).
  pose proof (pickup_score_monotone _ _ Hp).
  lia.
Qed.

(** C10. For every metrics value the score is a multiple of 10 between 0 and
    100: the time sub-score is one of 0, 10, 20, 30, 40, the doomscroll and
    pickup sub-scores are each one of 0, 10, 20, 30, the total is their sum
    (and the breakdown reports them) when [days_tracked > 0], and the total
    is 0 when [days_tracked = 0]. *)
Theorem chronic_score_range (m : Metrics) :
  let cs := calculate_chronic_score m in
  (exists k, score cs = 10 * k)
  /\ 0 <= score cs <= 100
  /\ In (time_score m) [0; 10; 20; 30; 40]
  /\ In (doomscroll_score m) [0; 10; 20; 30]
  /\ In (pickup_score m) [0; 10; 20; 30]
  /\ (0 < days_tracked m ->
      score cs = time_score m + doomscroll_score m + pickup_score m
      /\ exists b, breakdown cs = Some b
                   /\ b_time_score b = time_score m
                   /\ b_doomscroll_score b = doomscroll_score m
                   /\ b_pickup_score b = pickup_score m)
  /\ (days_tracked m = 0 -> score cs = 0 /\ level cs = "Unknown").
Proof.
  intros cs. subst cs.
  pose proof (time_score_values m) as Ht.
  pose proof (doomscroll_score_values m) as Hd.
  pose proof (pickup_score_values m) as Hp.
  assert ((exists k, total_score m = 10 * k) /\ 0 <= total_score m <= 100) as [Hk Hr].
  { unfold total_score.
    destruct (time_score_tens m) as (a & -> & Ha).
    destruct (doomscroll_score_tens m) as (b & -> & Hb).
    destruct (pickup_score_tens m) as (c & -> & Hc).
    split; [exists (a + b + c)|]; lia. }
  unfold calculate_chronic_score.
  destruct (Z.eqb_spec (days_tracked m) 0) as [E | E]; simpl.
  - split; [now exists 0|]. split; [lia|].
    split; [exact Ht|]. split; [exact Hd|]. split; [exact Hp|].
    split; [intros H; lia | intros _; split; reflexivity].
  - split; [exact Hk|]. split; [exact Hr|].
    split; [exact Ht|]. split; [exact Hd|]. split; [exact Hp|].
    split; [intros _ | intros H; contradiction].
    split; [reflexivity|]. eexists. repeat split.
Qed.

(** ** Stable sorting by an integer key *)

Section SortByKey.
Context {A : Type} (key : A -> Z).

Lemma insert_by_perm (x : A) (l : list A) :
  Permutation (insert_by (key_le key) x l) (x :: l).
Proof.
  induction l as [|y l IH]; simpl.
  - reflexivity.
  - destruct (key_le key x y).
    + reflexivity.
    + rewrite IH. apply perm_swap.
Qed.

Lemma sort_by_perm (l : list A) : Permutation (sort_by (key_le key) l) l.
Proof.
  induction l as [|x l IH]; simpl.
  - reflexivity.
  - rewrite insert_by_perm. now apply perm_skip.
Qed.

Lemma insert_by_sorted (x : A) (l : list A) :
  StronglySorted (fun a b => key a <= key b) l ->
  StronglySorted (fun a b => key a <= key b) (insert_by (key_le key) x l).
Proof.
  induction 1 as [|y l Hs IH Hall]; simpl.
  - repeat constructor.
  - unfold key_le at 1. destruct (Z.leb_spec (key x) (key y)) as [Hle | Hgt].
    + constructor; [now constructor|].
      constructor; [assumption|].
      eapply Forall_impl; [|exact Hall]. intros a Ha. simpl in Ha. lia.
    + constructor; [assumption|].
      eapply Permutation_Forall; [symmetry; apply insert_by_perm|].
      constructor; [lia | assumption].
Qed.

Lemma sort_by_sorted (l : list A) :
  StronglySorted (fun a b => key a <= key b) (sort_by (key_le key) l).
Proof.
  induction l as [|x l IH]; simpl.
  - constructor.
  - now apply insert_by_sorted.
Qed.

(** Insertion never reorders elements that share a key: any class of
    elements with one common key is left in place. *)
Lemma insert_by_stable (P : A -> bool) (x : A) (l : list A) :
  (forall a b, P a = true -> P b = true -> key a = key b) ->
  filter P (insert_by (key_le key) x l) = filter P (x :: l).
Proof.
  intros Hkey. induction l as [|y l IH].
  - reflexivity.
  - cbn [insert_by]. unfold key_le at 1.
    destruct (Z.leb_spec (key x) (key y)) as [Hle | Hgt]; [reflexivity|].
    cbn [filter] in *. rewrite IH.
    destruct (P x) eqn:Ex, (P y) eqn:Ey; try reflexivity.
    specialize (Hkey _ _ Ex Ey). lia.
Qed.

Lemma sort_by_stable (P : A -> bool) (l : list A) :
  (forall a b, P a = true -> P b = true -> key a = key b) ->
  filter P (sort_by (key_le key) l) = filter P l.
Proof.
  intros Hkey. induction l as [|x l IH]; simpl.
  - reflexivity.
  - rewrite insert_by_stable by assumption. simpl. now rewrite IH.
Qed.

(** In a sorted list, an element's key is at most the key of any later one. *)
Lemma sorted_precedes (l l1 l2 l3 : list A) (a b : A) :
  StronglySorted (fun a b => key a <= key b) l ->
  l = (l1 ++ a :: l2 ++ b :: l3)%list -> key a <= key b.
Proof.
  intros Hs. revert l1. induction Hs as [|y l Hs IH Hall]; intros l1 Heq.
  - destruct l1; discriminate.
  - destruct l1 as [|c l1]; simpl in Heq; injection Heq as -> ->.
    + rewrite Forall_forall in Hall. apply Hall.
      apply in_or_app. right. now left.
    + now apply (IH l1).
Qed.

End SortByKey.

(** ** Tip generator *)

Lemma rank_high (t : Tip) : tip_priority t = "high" -> rank t = 0.
Proof. unfold rank. now intros ->. Qed.

Lemma rank_medium (t : Tip) : tip_priority t = "medium" -> rank t = 1.
Proof. unfold rank. now intros ->. Qed.

Lemma rank_low (t : Tip) : tip_priority t = "low" -> rank t = 2.
Proof. unfold rank. now intros ->. Qed.

Lemma has_priority_rank (p : string) (a b : Tip) :
  has_priority p a = true -> has_priority p b = true -> rank a = rank b.
Proof.
  unfold has_priority, rank. intros Ha Hb.
  apply String.eqb_eq in Ha, Hb. congruence.
Qed.


Section TipsProps.
Context {RT : Runtime}.

(** Case analysis on the shape of [top_apps] and on each of the six
    conditions guarding an append. *)
Ltac tips_cases m :=
  unfold tips_appended, append_if; cbv zeta;
  destruct (top_apps m) as [[|[? ?] ?]|];
  repeat match goal with
         | |- context [if ?c then (_ ++ [_])%list else _] => destruct c
         end.

(** Before the sort, the tips stand in the order of their conditions. *)
Lemma tips_appended_order (m : Metrics) :
  exists keep : string -> bool,
    map tip_category (tips_appended m) = filter keep condition_order.
Proof.
  exists (fun c => existsb (String.eqb c) (map tip_category (tips_appended m))).
  tips_cases m; reflexivity.
Qed.

Lemma tips_appended_priorities (m : Metrics) :
  Forall (fun t => In (tip_priority t) ["high"; "medium"; "low"]) (tips_appended m).
Proof.
  tips_cases m; apply Forall_forall; intros t Hin; simpl in Hin;
    intuition (subst; simpl; auto).
Qed.

Lemma generate_tips_nonempty (m : Metrics) (df : DataFrame) :
  df <> [] -> generate_tips m df = sort_tips (tips_appended m).
Proof. destruct df; [contradiction | reflexivity]. Qed.

(** C8. For a non-empty record set the returned tips are sorted by priority
    rank and the sort is stable: the tips of each priority are exactly those
    appended by conditions 1 to 8, in that order; so no "medium" tip precedes
    a "high" tip and no "low" tip precedes a "medium" or "high" tip. *)
Theorem generate_tips_sorted_stable (m : Metrics) (df : DataFrame) :
  df <> [] ->
  let tips := generate_tips m df in
  StronglySorted (fun a b => rank a <= rank b) tips
  /\ Permutation tips (tips_appended m)
  /\ (forall p, filter (has_priority p) tips = filter (has_priority p) (tips_appended m))
  /\ (exists keep, map tip_category (tips_appended m) = filter keep condition_order)
  /\ Forall (fun t => In (tip_priority t) ["high"; "medium"; "low"]) tips
  /\ (forall l1 a l2 b l3,
         tips = (l1 ++ a :: l2 ++ b :: l3)%list ->
         (tip_priority a = "medium" -> tip_priority b <> "high")
         /\ (tip_priority a = "low" ->
             tip_priority b <> "medium" /\ tip_priority b <> "high")).
Proof.
  intros Hdf tips. subst tips. rewrite (generate_tips_nonempty m df Hdf).
  unfold sort_tips.
  pose proof (sort_by_sorted rank (tips_appended m)) as Hsorted.
  pose proof (sort_by_perm rank (tips_appended m)) as Hperm.
  split; [exact Hsorted|]. split; [exact Hperm|]. split.
  { intros p. apply sort_by_stable. apply has_priority_rank. }
  split; [apply tips_appended_order|]. split.
  { eapply Permutation_Forall; [symmetry; exact Hperm|].
    apply tips_appended_priorities. }
  intros l1 a l2 b l3 Heq.
  pose proof (sorted_precedes rank _ l1 l2 l3 a b Hsorted Heq) as Hle.
  split.
  - intros Ha Hb. rewrite (rank_medium a Ha), (rank_high b Hb) in Hle. lia.
  - intros Ha. rewrite (rank_low a Ha) in Hle. split; intros Hb.
    + rewrite (rank_medium b Hb) in Hle. lia.
    + rewrite (rank_high b Hb) in Hle. lia.
Qed.

End TipsProps.

(** ** Aggregator *)

Section GroupByProps.
Context {K : Type} (cmp : K -> K -> comparison).

(** Adding a row to the groups adds its value to the grand total. *)
Lemma group_add_total (k : K) (v : Q) (groups : list (K * Q)) :
  (fold_right (fun kv acc => snd kv + acc) 0 (group_add cmp Qplus k v groups)
   == v + fold_right (fun kv acc => snd kv + acc) 0 groups)%Q.
Proof.
  induction groups as [|[k' v'] groups IH]; simpl.
  - reflexivity.
  - destruct (cmp k k'); simpl.
    + lra.
    + reflexivity.
    + rewrite IH. lra.
Qed.

Lemma fold_group_add_total (rows groups : list (K * Q)) :
  (fold_right (fun kv acc => snd kv + acc) 0
     (fold_left (fun groups kv => group_add cmp Qplus (fst kv) (snd kv) groups) rows groups)
   == fold_right (fun kv acc => snd kv + acc) 0 groups
      + fold_right (fun kv acc => snd kv + acc) 0 rows)%Q.
Proof.
  revert groups. induction rows as [|[k v] rows IH]; intros groups; simpl.
  - lra.
  - rewrite IH, group_add_total. lra.
Qed.

(** Grouping redistributes the values without changing their total. *)
Lemma groupby_sum_total (rows : list (K * Q)) :
  (fold_right (fun kv acc => snd kv + acc) 0 (groupby_sum cmp Qplus rows)
   == fold_right (fun kv acc => snd kv + acc) 0 rows)%Q.
Proof. unfold groupby_sum. rewrite fold_group_add_total. simpl. lra. Qed.

End GroupByProps.

Lemma category_rows_total (df : DataFrame) :
  (fold_right (fun kv acc => snd kv + acc) 0
     (map (fun r => (category r, Num.nan_to_zero (time_hours r))) df)
   == Num.sum (map time_hours df))%Q.
Proof.
  induction df as [|r df IH]; simpl.
  - reflexivity.
  - destruct (time_hours r); simpl; rewrite IH; lra.
Qed.

Lemma hours_total (df : DataFrame) :
  Forall (fun r => time_hours r = option_map (fun t => t / 60)%Q (time_minutes r)) df ->
  (Num.sum (map time_hours df) == Num.sum (map time_minutes df) / 60)%Q.
Proof.
  induction 1 as [|r df Hr _ IH]; simpl.
  - reflexivity.
  - rewrite Hr. destruct (time_minutes r) as [t|]; simpl; [|exact IH].
    rewrite IH. field.
Qed.

Lemma round_values_length (d : list (string * Q)) :
  length (round_values d) = length d.
Proof. apply length_map. Qed.

(** Rounding each value moves the total by at most 0.005 per value. *)
Lemma round_values_error (d : list (string * Q)) :
  (Qabs (sum_values (round_values d) - sum_values d)
   <= inject_Z (Z.of_nat (length d)) * (1 # 200))%Q.
Proof.
  induction d as [|[k v] d IH].
  - apply Qabs_Qle_condition.
    cbn [round_values map sum_values fold_right length].
    change (inject_Z (Z.of_nat 0)) with 0%Q. split; lra.
  - cbn [round_values map sum_values fold_right fst snd length] in *.
    rewrite Nat2Z.inj_succ. unfold Z.succ. rewrite inject_Z_plus.
    change (inject_Z 1) with 1%Q.
    pose proof (round2_error v) as Hv.
    apply Qabs_Qle_condition in Hv, IH. apply Qabs_Qle_condition.
    fold (round_values d) in *. fold (sum_values (round_values d)) in *.
    fold (sum_values d) in *.
    split; lra.
Qed.

Section AggregatorProps.
Context {RT : Runtime}.

Lemma calculate_metrics_cons (r : Row) (df : DataFrame) :
  total_screen_time_hours (calculate_metrics (r :: df))
    = Num.round (Num.sum (map time_minutes (r :: df)) / 60) 2
  /\ total_screen_time_minutes (calculate_metrics (r :: df))
       = Num.int (Num.sum (map time_minutes (r :: df)))
  /\ category_breakdown (calculate_metrics (r :: df))
       = round_values (category_sums (r :: df))
  /\ top_apps (calculate_metrics (r :: df))
       = Some (round_values (top_apps_sums (r :: df))).
Proof. repeat split. Qed.

(** The non-empty path always reports [top_apps]. *)
Lemma calculate_metrics_top_apps (df : DataFrame) :
  df <> [] -> exists d, top_apps (calculate_metrics df) = Some d.
Proof.
  destruct df as [|r df]; [contradiction|]. intros _.
  eexists. apply calculate_metrics_cons.
Qed.


(** C9. For every non-empty record set produced by the normalizer, the
    values of [category_breakdown] add up to [total_screen_time_hours] up to
    the rounding of each of them and of the total to two decimals: the two
    differ by at most 0.005 for each category plus 0.005 for the total. *)
Theorem category_breakdown_sums_to_total (entries : list RawEntry) (df : DataFrame) :
  process_entries entries = Ok df -> df <> [] ->
  let m := calculate_metrics df in
  (Qabs (sum_values (category_breakdown m) - total_screen_time_hours m)
   <= inject_Z (Z.of_nat (length (category_breakdown m)) + 1) * (1 # 200))%Q.
Proof.
  intros Hproc Hdf m. subst m.
  pose proof (process_entries_time_hours _ _ Hproc) as Hhours.
  destruct df as [|r df]; [contradiction|]. clear Hdf.
  destruct (calculate_metrics_cons r df) as (-> & _ & -> & _).
  set (rows := r :: df) in *.
  rewrite round_values_length, inject_Z_plus. change (inject_Z 1) with 1%Q.
  pose proof (round_values_error (category_sums rows)) as Hcats.
  pose proof (round2_error (Num.sum (map time_minutes rows) / 60)) as Htotal.
  assert (sum_values (category_sums rows) == Num.sum (map time_minutes rows) / 60)%Q as Hexact.
  { unfold sum_values, category_sums.
    rewrite groupby_sum_total, category_rows_total. now apply hours_total. }
  apply Qabs_Qle_condition in Hcats, Htotal. apply Qabs_Qle_condition.
  split; lra.
Qed.

(** C3. On the empty list [analyze_entries] returns normally with a zero
    count, zero numeric fields, empty breakdown and daily and weekly totals, a
    zero score at level "Unknown" and no tips; the zero-state metrics carry
    no [top_apps] entry at all. *)
Theorem analyze_entries_empty :
  exists a,
    analyze_entries [] = Ok a
    /\ processed_entries_count a = 0
    /\ total_screen_time_hours (metrics a) = 0%Q
    /\ total_screen_time_minutes (metrics a) = 0
    /\ doomscroll_hours (metrics a) = 0%Q
    /\ total_pickups (metrics a) = 0
    /\ avg_pickups_per_day (metrics a) = 0%Q
    /\ days_tracked (metrics a) = 0
    /\ category_breakdown (metrics a) = []
    /\ daily_totals (metrics a) = []
    /\ weekly_totals (metrics a) = []
    /\ top_apps (metrics a) = None
    /\ score (chronic_score a) = 0
    /\ level (chronic_score a) = "Unknown"
    /\ tips a = [].
Proof. eexists. repeat split. Qed.

End AggregatorProps.

(** * The module run on concrete inputs *)

Module Runs.
Import Reference Samples.

Example scenario_totals :
  exists a,
    analyze_entries scenario = Ok a
    /\ (total_screen_time_hours (metrics a) == 4)%Q
    /\ (doomscroll_hours (metrics a) == 35 # 10)%Q
    /\ map fst (category_breakdown (metrics a)) = ["Productivity"; "Social Media"]
    /\ days_tracked (metrics a) = 1
    /\ (avg_pickups_per_day (metrics a) == 40)%Q
    /\ score (chronic_score a) = 50
    /\ map tip_category (tips a)
       = ["social_media"; "specific_app"; "boundaries"; "balance"; "mindfulness"; "tracking"].
Proof. eexists. split; [vm_compute; reflexivity|]. repeat split. Qed.

(** A non-numeric [time_minutes] is coerced to NaN and its row dropped. *)
Example non_numeric_dropped :
  exists r, process_entries [good; non_numeric] = Ok [r] /\ app r = Some "Gmail".
Proof. eexists. split; [vm_compute; reflexivity | reflexivity]. Qed.

(** One unparsable date among well-formed entries makes the whole call
    raise. *)
Lemma bad_date_raises :
  process_entries [good; bad_date; good] = Raise ValueError.
Proof.
  apply (process_entries_bad_date_raises [good; bad_date; good] bad_date "not-a-date").
  - simpl. auto.
  - reflexivity.
  - reflexivity.
Defined.



(** A caller-supplied category outside the taxonomy is kept verbatim. *)
Lemma free_text_category_kept :
  exists r,
    process_entries [free_text_category] = Ok [r]
    /\ category r = "Banana"
    /\ ~ In (category r) valid_categories.
Proof.
  eexists. split; [vm_compute; reflexivity|].
  split; [reflexivity|]. simpl. intuition discriminate.
Qed.

(** The amended category rule on the same entry. *)
Lemma process_entries_category_run :
  exists df r,
    process_entries [free_text_category] = Ok df
    /\ In r df
    /\ exists e,
         In e [free_text_category]
         /\ record_of e r
         /\ match raw_category e with
            | Some c => category r = c
            | None =>
                exists a, raw_app e = Some a
                          /\ category r = auto_categorize_app a
                          /\ In (category r) valid_categories
            end.
Proof.
  assert (exists df, process_entries [free_text_category] = Ok df /\ exists r, In r df)
    as (df & Hdf & r & Hr).
  { eexists. split; [vm_compute; reflexivity|]. eexists. left. reflexivity. }
  exists df, r. split; [exact Hdf|]. split; [exact Hr|].
  exact (process_entries_category [free_text_category] df r Hdf Hr).
Defined.



(** Six hours over one day score at least as high as six hours over two. *)
Lemma chronic_score_monotone_run :
  0 < days_tracked (six_hours 2)
  /\ 0 < days_tracked (six_hours 1)
  /\ (avg_hours_per_day (six_hours 2) <= avg_hours_per_day (six_hours 1))%Q
  /\ score (calculate_chronic_score (six_hours 2))
     <= score (calculate_chronic_score (six_hours 1)).
Proof.
  assert (avg_hours_per_day (six_hours 2) <= avg_hours_per_day (six_hours 1))%Q as Hh
    by (apply Qle_bool_iff; reflexivity).
  split; [reflexivity|]. split; [reflexivity|]. split; [exact Hh|].
  apply (chronic_score_monotone (six_hours 2) (six_hours 1)).
  - reflexivity.
  - reflexivity.
  - left. split; [exact Hh|]. split; reflexivity.
Defined.

(** The tips for six hours in one day come out sorted and stable. *)
Lemma generate_tips_run :
  half_minute <> []
  /\ let tips := generate_tips (six_hours 1) half_minute in
     StronglySorted (fun a b => rank a <= rank b) tips
     /\ Permutation tips (tips_appended (six_hours 1))
     /\ (forall p, filter (has_priority p) tips
                   = filter (has_priority p) (tips_appended (six_hours 1)))
     /\ (exists keep,
            map tip_category (tips_appended (six_hours 1)) = filter keep condition_order)
     /\ Forall (fun t => In (tip_priority t) ["high"; "medium"; "low"]) tips
     /\ (forall l1 a l2 b l3,
            tips = (l1 ++ a :: l2 ++ b :: l3)%list ->
            (tip_priority a = "medium" -> tip_priority b <> "high")
            /\ (tip_priority a = "low" ->
                tip_priority b <> "medium" /\ tip_priority b <> "high")).
Proof.
  split; [discriminate|].
  apply (generate_tips_sorted_stable (six_hours 1) half_minute). discriminate.
Defined.

(** The breakdown of the documented scenario adds up to its total. *)
Lemma category_breakdown_run :
  exists df,
    process_entries scenario = Ok df
    /\ df <> []
    /\ let m := calculate_metrics df in
       (Qabs (sum_values (category_breakdown m) - total_screen_time_hours m)
        <= inject_Z (Z.of_nat (length (category_breakdown m)) + 1) * (1 # 200))%Q.
Proof.
  assert (exists df, process_entries scenario = Ok df /\ df <> []) as (df & Hdf & Hne).
  { eexists. split; [vm_compute; reflexivity | discriminate]. }
  exists df. split; [exact Hdf|]. split; [exact Hne|].
  exact (category_breakdown_sums_to_total scenario df Hdf Hne).
Defined.

End Runs.

(** * Further properties *)

(** ** Categorizer *)



(** X2. The pattern "nike run" of Health & Fitness is dead: a name that
    contains it also contains "nike", so it is claimed by Shopping or by a
    category declared before Shopping, never by Health & Fitness. *)
Theorem nike_run_is_shadowed (app_name : string) :
  matches (Str.lower app_name) ["nike run"] ->
  In (auto_categorize_app app_name)
     ["Social Media"; "Productivity"; "Entertainment"; "Gaming"; "News"; "Shopping"]
  /\ auto_categorize_app app_name <> "Health & Fitness".
Proof.
  intros (p & pre & post & [<- | []] & Heq).
  assert (matches (Str.lower app_name) (patterns_of "Shopping")) as Hshop.
  { exists "nike", pre, (" run" ++ post). split.
    - simpl. tauto.
    - rewrite Heq. reflexivity. }
  apply scan_patterns_spec in Hshop.
  assert (In (auto_categorize_app app_name)
             ["Social Media"; "Productivity"; "Entertainment"; "Gaming"; "News"; "Shopping"])
    as Hin.
  { unfold auto_categorize_app, CATEGORY_PATTERNS. cbn [scan_categories].
    change (patterns_of "Shopping") with
      ["amazon"; "ebay"; "etsy"; "shopify"; "wish"; "alibaba"; "target";
       "walmart"; "best buy"; "zara"; "nike"; "adidas"] in Hshop.
    rewrite Hshop.
    repeat match goal with
           | |- context [if scan_patterns ?l ?ps then _ else _] =>
               destruct (scan_patterns l ps)
           end; simpl; tauto. }
  split; [exact Hin|]. intros Heq'. rewrite Heq' in Hin.
  simpl in Hin. intuition discriminate.
Qed.

(** ** Scorer *)

(** X3. The level is "Unknown", and the breakdown empty, exactly when no day
    is tracked. *)
Theorem unknown_iff_untracked (m : Metrics) :
  (days_tracked m = 0 <-> level (calculate_chronic_score m) = "Unknown")
  /\ (days_tracked m = 0 <-> breakdown (calculate_chronic_score m) = None).
Proof.
  unfold calculate_chronic_score.
  destruct (Z.eqb_spec (days_tracked m) 0) as [E | E]; simpl.
  - tauto.
  - split; (split; [contradiction|]); [|discriminate].
    unfold level_of.
    repeat match goal with |- context [if ?c then _ else _] => destruct c end;
      simpl; discriminate.
Qed.


(** X5. "Chronically Online" is the level exactly from a score of 80, and it
    takes all three factors: at least 4 hours a day, 20 percent social media
    and 50 pickups a day. *)
Theorem chronically_online_needs_all_factors (m : Metrics) :
  days_tracked m <> 0 ->
  (level (calculate_chronic_score m) = "Chronically Online"
   <-> 80 <= score (calculate_chronic_score m))
  /\ (level (calculate_chronic_score m) = "Chronically Online" ->
      (4 <= avg_hours_per_day m /\ 20 <= doomscroll_ratio m
       /\ 50 <= avg_pickups_per_day m)%Q).
Proof.
  intros Hd.
  assert (level (calculate_chronic_score m) = "Chronically Online"
          <-> 80 <= score (calculate_chronic_score m)) as Hlevel.
  { rewrite (score_tracked m Hd). unfold calculate_chronic_score.
    destruct (Z.eqb_spec (days_tracked m) 0) as [E | _]; [contradiction|].
    cbn [level]. unfold level_of.
    repeat match goal with
           | |- context [?a <? ?b] => destruct (Z.ltb_spec a b)
           end; simpl; split; intros Hx; try discriminate; try lia; reflexivity. }
  split; [exact Hlevel|]. intros Hx. apply Hlevel in Hx.
  rewrite (score_tracked m Hd) in Hx. revert Hx.
  unfold total_score, time_score, doomscroll_score, pickup_score.
  qcases; intros Hx; try lia; repeat split; lra.
Qed.

(** ** Tip generator *)

(** Sorting a list that is already in key order changes nothing. *)
Lemma sort_by_sorted_id {A : Type} (key : A -> Z) (l : list A) :
  StronglySorted (fun a b => key a <= key b) l -> sort_by (key_le key) l = l.
Proof.
  induction 1 as [|x l Hs IH Hall]; simpl.
  - reflexivity.
  - rewrite IH. destruct l as [|y l]; simpl.
    + reflexivity.
    + unfold key_le. inversion Hall as [|? ? Hxy _]; subst.
      apply Z.leb_le in Hxy. now rewrite Hxy.
Qed.

Lemma has_tip_app (c : string) (l : list Tip) (t : Tip) :
  has_tip c (l ++ [t]) <-> has_tip c l \/ tip_category t = c.
Proof.
  unfold has_tip. split.
  - intros (t' & Hin & Hc). apply in_app_or in Hin. destruct Hin as [Hin | [<- | []]].
    + left. now exists t'.
    + now right.
  - intros [(t' & Hin & Hc) | Hc].
    + exists t'. split; [apply in_or_app; now left | assumption].
    + exists t. split; [apply in_or_app; right; now left | assumption].
Qed.

Lemma has_tip_nil (c : string) : has_tip c [] <-> False.
Proof. unfold has_tip. split; [intros (t & [] & _) | contradiction]. Qed.

Section MoreTipsProps.
Context {RT : Runtime}.

Lemma has_tip_append_if (c : string) (b : bool) (t : Tip) (l : list Tip) :
  has_tip c (append_if b t l) <-> has_tip c l \/ (b = true /\ tip_category t = c).
Proof.
  unfold append_if. destruct b.
  - rewrite has_tip_app. tauto.
  - intuition discriminate.
Qed.

Ltac tips_cases' m :=
  unfold tips_appended, append_if; cbv zeta;
  destruct (top_apps m) as [[|[? ?] ?]|];
  repeat match goal with
         | |- context [if ?c then (_ ++ [_])%list else _] => destruct c
         end.

Lemma tips_appended_sorted (m : Metrics) :
  StronglySorted (fun a b => rank a <= rank b) (tips_appended m).
Proof.
  tips_cases' m; cbn [app]; repeat constructor; vm_compute; discriminate.
Qed.

(** X6. The final sort never moves a tip: the conditions are evaluated high
    priority first, then medium, then low, so for a non-empty record set the
    result is the list in the order the tips were appended. *)
Theorem generate_tips_sort_is_identity (m : Metrics) (df : DataFrame) :
  df <> [] -> generate_tips m df = tips_appended m.
Proof.
  intros Hdf. rewrite (generate_tips_nonempty m df Hdf).
  apply sort_by_sorted_id, tips_appended_sorted.
Qed.

(** X7. For a non-empty record set the result always ends with the
    mindfulness tip and the weekly-review tip, after at most six others: it
    has between two and eight tips.  For an empty record set it is empty,
    whatever the metrics. *)
Theorem generate_tips_shape (m : Metrics) (df : DataFrame) :
  (df <> [] ->
   exists front,
     generate_tips m df = (front ++ [tip7; tip8])%list
     /\ (length front <= 6)%nat
     /\ (2 <= length (generate_tips m df) <= 8)%nat)
  /\ (df = [] -> generate_tips m df = []).
Proof.
  split.
  - intros Hdf. rewrite (generate_tips_nonempty m df Hdf). unfold sort_tips.
    rewrite (sort_by_sorted_id rank _ (tips_appended_sorted m)).
    exists (firstn (length (tips_appended m) - 2) (tips_appended m)).
    tips_cases' m; (split; [reflexivity | simpl; lia]).
  - intros ->. reflexivity.
Qed.

(** Which tags the appended tips carry, condition by condition. *)
Lemma tips_appended_tags (m : Metrics) :
  let avg :=
    if 0 <? days_tracked m
    then (total_screen_time_hours m / inject_Z (days_tracked m))%Q else 0%Q in
  let pct :=
    if Num.Qltb 0 (total_screen_time_hours m)
    then ((doomscroll_hours m / total_screen_time_hours m) * 100)%Q else 0%Q in
  (has_tip "general" (tips_appended m) <-> Num.Qgeb avg 6 = true)
  /\ (has_tip "social_media" (tips_appended m) <-> Num.Qgeb pct 40 = true)
  /\ (has_tip "pickups" (tips_appended m) <-> Num.Qgeb (avg_pickups_per_day m) 100 = true)
  /\ (has_tip "boundaries" (tips_appended m) <-> Num.Qgeb avg 4 = true).
Proof.
  intros avg pct. unfold tips_appended. cbv zeta. fold avg. fold pct.
  destruct (top_apps m) as [[|[top_app top_hours] ?]|];
    rewrite ?has_tip_app, ?has_tip_append_if, ?has_tip_nil;
    cbn [tip_category tip1 tip2 tip3 tip4 tip5 tip6 tip7 tip8];
    repeat split; intros Hx; try tauto;
    repeat match goal with
           | H : _ \/ _ |- _ => destruct H
           | H : _ /\ _ |- _ => destruct H
           end;
    try discriminate; try contradiction; try assumption; tauto.
Qed.

(** X8. With tracked days, each threshold tip fires exactly when the matching
    sub-score is high: the screen-time-limit tip when the time sub-score is
    at least 30, the phone-free-zones tip when it is at least 20, the
    social-media tip when the doomscroll sub-score is at least 20 and the
    pickups tip when the pickup sub-score is at least 20. *)
Theorem tips_agree_with_subscores (m : Metrics) (df : DataFrame) :
  df <> [] -> 0 < days_tracked m ->
  (has_tip "general" (generate_tips m df) <-> 30 <= time_score m)
  /\ (has_tip "boundaries" (generate_tips m df) <-> 20 <= time_score m)
  /\ (has_tip "social_media" (generate_tips m df) <-> 20 <= doomscroll_score m)
  /\ (has_tip "pickups" (generate_tips m df) <-> 20 <= pickup_score m).
Proof.
  intros Hdf Hdays. rewrite (generate_tips_nonempty m df Hdf). unfold sort_tips.
  rewrite (sort_by_sorted_id rank _ (tips_appended_sorted m)).
  destruct (tips_appended_tags m) as (H1 & H2 & H3 & H4).
  rewrite H1, H2, H3, H4. clear H1 H2 H3 H4.
  assert ((0 <? days_tracked m) = true) as -> by now apply Z.ltb_lt.
  fold (avg_hours_per_day m). fold (doomscroll_ratio m).
  unfold time_score, doomscroll_score, pickup_score.
  qcases; repeat split; intros Hx; try lia; try discriminate; try reflexivity; lra.
Qed.

End MoreTipsProps.

(** ** Normalizer *)

Section MoreNormalizerProps.
Context {RT : Runtime}.

Lemma to_datetime_cell_closed_form (e : RawEntry) :
  to_datetime_cell (raw_date e) =
  if date_ok e then Ok (parsed_date e) else Raise ValueError.
Proof.
  unfold to_datetime_cell, date_ok, parsed_date.
  destruct (raw_date e) as [s|]; [destruct (parse_datetime s)|]; reflexivity.
Qed.

Lemma to_datetime_closed_form (entries : list RawEntry) :
  to_datetime (map raw_date entries) =
  if forallb date_ok entries then Ok (map parsed_date entries) else Raise ValueError.
Proof.
  unfold to_datetime. induction entries as [|e entries IH]; [reflexivity|].
  cbn [map mapM forallb]. rewrite to_datetime_cell_closed_form, IH.
  destruct (date_ok e), (forallb date_ok entries); reflexivity.
Qed.

Lemma normalize_row_closed_form (e : RawEntry) (d : option Timestamp) :
  normalize_row (e, d) =
  if categorizable e
  then Ok {| date := d; app := app (row_of e); time_minutes := time_minutes (row_of e);
             category := category (row_of e); pickups := pickups (row_of e);
             time_hours := time_hours (row_of e) |}
  else Raise AttributeError.
Proof.
  unfold normalize_row, categorize_row, categorizable, row_of, pickups_as_normalized,
    positive, fillna0. cbn [app time_minutes category pickups time_hours].
  destruct (raw_category e) as [c|], (raw_app e) as [a|]; simpl;
    destruct (to_numeric (raw_time_minutes e)) as [t|]; simpl;
    destruct (raw_pickups e) as [p|]; simpl; try reflexivity.
  all: unfold Num.Qltb; simpl; reflexivity.
Qed.

Lemma normalize_rows_closed_form (entries : list RawEntry) :
  mapM normalize_row (combine entries (map parsed_date entries)) =
  if forallb categorizable entries then Ok (map row_of entries) else Raise AttributeError.
Proof.
  induction entries as [|e entries IH]; [reflexivity|].
  cbn [map combine mapM forallb]. rewrite normalize_row_closed_form, IH.
  destruct (categorizable e), (forallb categorizable entries); reflexivity.
Qed.

(** The column-wise program is a row-wise map and filter, unless a cell raises. *)
Lemma process_entries_closed_form (entries : list RawEntry) :
  process_entries entries =
  if negb (forallb date_ok entries) then Raise ValueError
  else if negb (forallb categorizable entries) then Raise AttributeError
  else Ok (dropna (map row_of entries)).
Proof.
  destruct entries as [|e0 es]; [reflexivity|].
  rewrite process_entries_cons, to_datetime_closed_form.
  destruct (forallb date_ok (e0 :: es)) eqn:Ed; [|reflexivity].
  cbn [negb bind]. rewrite normalize_rows_closed_form.
  destruct (forallb categorizable (e0 :: es)) eqn:Ec; reflexivity.
Qed.

Lemma keeps_row_of (e : RawEntry) :
  date_ok e = true ->
  notna (date (row_of e)) && notna (app (row_of e)) && notna (time_minutes (row_of e))
  = complete e.
Proof.
  unfold date_ok, complete, row_of, parsed_date. cbn [date app time_minutes].
  destruct (raw_date e) as [s|]; [|reflexivity].
  intros ->. reflexivity.
Qed.

Lemma dropna_row_of (entries : list RawEntry) :
  forallb date_ok entries = true ->
  dropna (map row_of entries) = map row_of (filter complete entries).
Proof.
  unfold dropna. induction entries as [|e entries IH]; [reflexivity|].
  cbn [map filter forallb]. intros Hok.
  apply andb_prop in Hok. destruct Hok as [He Hok].
  rewrite (keeps_row_of e He), (IH Hok). now destruct (complete e).
Qed.



Lemma process_entries_ok_rows (entries : list RawEntry) (df : DataFrame) :
  process_entries entries = Ok df -> df = map row_of (filter complete entries).
Proof.
  rewrite process_entries_closed_form.
  destruct (forallb date_ok entries) eqn:Ed; simpl; [|discriminate].
  destruct (forallb categorizable entries); simpl; [|discriminate].
  intros H. injection H as <-. apply (dropna_row_of entries Ed).
Qed.

Lemma process_entries_keeps_rows_bound (entries : list RawEntry) (df : DataFrame) :
  process_entries entries = Ok df -> (length df <= length entries)%nat.
Proof.
  intros H. rewrite (process_entries_ok_rows _ _ H), length_map.
  apply filter_length_le.
Qed.




End MoreNormalizerProps.

(** ** groupby over an ordered key *)

Section OrderedGroupBy.
Context {K V : Type} (cmp : K -> K -> comparison) (add : V -> V -> V).
Hypothesis cmp_eq : forall a b, cmp a b = Eq <-> a = b.
Hypothesis cmp_antisym : forall a b, cmp a b = CompOpp (cmp b a).
Hypothesis cmp_trans : forall a b c, cmp a b = Lt -> cmp b c = Lt -> cmp a c = Lt.

Lemma group_add_keys (k k' : K) (v : V) (groups : list (K * V)) :
  In k (map fst (group_add cmp add k' v groups)) <-> k = k' \/ In k (map fst groups).
Proof.
  induction groups as [|[k1 v1] groups IH]; simpl.
  - intuition.
  - destruct (cmp k' k1) eqn:E; simpl.
    + apply cmp_eq in E. subst k1. intuition.
    + intuition.
    + rewrite IH. intuition.
Qed.

Lemma group_add_sorted (k : K) (v : V) (groups : list (K * V)) :
  StronglySorted (fun a b => cmp a b = Lt) (map fst groups) ->
  StronglySorted (fun a b => cmp a b = Lt) (map fst (group_add cmp add k v groups)).
Proof.
  induction groups as [|[k1 v1] groups IH]; simpl; intros Hs.
  - repeat constructor.
  - inversion Hs as [|? ? Hs' Hall]; subst.
    destruct (cmp k k1) eqn:E; simpl.
    + now constructor.
    + constructor; [assumption|]. constructor; [assumption|].
      eapply Forall_impl; [|exact Hall]. intros a Ha. now apply (cmp_trans k k1 a).
    + constructor; [now apply IH|].
      apply Forall_forall. intros a Ha. apply group_add_keys in Ha.
      destruct Ha as [-> | Ha].
      * rewrite cmp_antisym, E. reflexivity.
      * rewrite Forall_forall in Hall. now apply Hall.
Qed.

Lemma fold_group_add_sorted (rows groups : list (K * V)) :
  StronglySorted (fun a b => cmp a b = Lt) (map fst groups) ->
  StronglySorted (fun a b => cmp a b = Lt)
    (map fst (fold_left (fun g kv => group_add cmp add (fst kv) (snd kv) g) rows groups)).
Proof.
  revert groups. induction rows as [|[k v] rows IH]; intros groups Hs; simpl.
  - assumption.
  - apply IH. now apply group_add_sorted.
Qed.

Lemma fold_group_add_keys (k : K) (rows groups : list (K * V)) :
  In k (map fst (fold_left (fun g kv => group_add cmp add (fst kv) (snd kv) g) rows groups))
  <-> In k (map fst groups) \/ In k (map fst rows).
Proof.
  revert groups. induction rows as [|[k' v] rows IH]; intros groups; simpl.
  - intuition.
  - rewrite IH, group_add_keys. intuition.
Qed.

(** The groups come out in strictly ascending key order. *)
Lemma groupby_sum_sorted (rows : list (K * V)) :
  StronglySorted (fun a b => cmp a b = Lt) (map fst (groupby_sum cmp add rows)).
Proof. apply fold_group_add_sorted. constructor. Qed.

(** There is a group for exactly the keys that occur. *)
Lemma groupby_sum_keys (k : K) (rows : list (K * V)) :
  In k (map fst (groupby_sum cmp add rows)) <-> In k (map fst rows).
Proof. unfold groupby_sum. rewrite fold_group_add_keys. simpl. intuition. Qed.

Lemma strictly_sorted_NoDup (l : list K) :
  StronglySorted (fun a b => cmp a b = Lt) l -> NoDup l.
Proof.
  induction 1 as [|a l Hs IH Hall]; constructor; [|assumption].
  intros Hin. rewrite Forall_forall in Hall. specialize (Hall a Hin).
  assert (cmp a a = Eq) as E by now apply cmp_eq. congruence.
Qed.

Lemma groupby_sum_NoDup (rows : list (K * V)) :
  NoDup (map fst (groupby_sum cmp add rows)).
Proof. apply strictly_sorted_NoDup, groupby_sum_sorted. Qed.



End OrderedGroupBy.

Lemma string_compare_eq (a b : string) : String.compare a b = Eq <-> a = b.
Proof. apply OrderedTypeEx.String_as_OT.cmp_eq. Qed.

Lemma string_compare_trans (a b c : string) :
  String.compare a b = Lt -> String.compare b c = Lt -> String.compare a c = Lt.
Proof.
  intros H1 H2. apply OrderedTypeEx.String_as_OT.cmp_lt.
  apply OrderedTypeEx.String_as_OT.cmp_lt in H1, H2.
  exact (OrderedTypeEx.String_as_OT.lt_trans _ _ _ H1 H2).
Qed.


(** ** Rounding is monotone *)

Lemma round_half_even_floor (x : Q) :
  Qfloor x <= Num.round_half_even x <= Qfloor x + 1.
Proof.
  unfold Num.round_half_even.
  destruct (Qcompare (x - inject_Z (Qfloor x)) (1 # 2)); [destruct (Z.even _)| |]; lia.
Qed.

Lemma round_half_even_mono (x y : Q) :
  (x <= y)%Q -> Num.round_half_even x <= Num.round_half_even y.
Proof.
  intros Hxy. pose proof (Qfloor_resp_le _ _ Hxy) as Hf.
  destruct (Z.eq_dec (Qfloor x) (Qfloor y)) as [E | NE].
  - unfold Num.round_half_even. rewrite <- E.
    destruct (Qcompare_spec (x - inject_Z (Qfloor x)) (1 # 2)) as [Hx | Hx | Hx];
      destruct (Qcompare_spec (y - inject_Z (Qfloor x)) (1 # 2)) as [Hy | Hy | Hy];
      try destruct (Z.even (Qfloor x)); try lia; lra.
  - pose proof (round_half_even_floor x). pose proof (round_half_even_floor y). lia.
Qed.

Lemma round2_mono (x y : Q) : (x <= y)%Q -> (Num.round x 2 <= Num.round y 2)%Q.
Proof.
  intros Hxy. unfold Num.round. change (inject_Z (10 ^ Z.of_nat 2)) with 100%Q.
  assert (Num.round_half_even (x * 100) <= Num.round_half_even (y * 100)) as Hr
      by (apply round_half_even_mono; lra).
  rewrite Zle_Qle in Hr.
  unfold Qdiv. setoid_replace (/ 100)%Q with (1 # 100)%Q by reflexivity. lra.
Qed.




(** ** Column sums *)

Lemma sum_nonneg (col : list (option Q)) :
  Forall (fun c => forall t, c = Some t -> (0 <= t)%Q) col -> (0 <= Num.sum col)%Q.
Proof.
  induction 1 as [|c col Hc _ IH]; simpl.
  - lra.
  - destruct c as [t|]; [|assumption]. specialize (Hc t eq_refl). lra.
Qed.


Lemma nodup_length_le (l : list Z) : (length (nodup Z.eq_dec l) <= length l)%nat.
Proof.
  induction l as [|x l IH]; simpl; [lia|].
  destruct (in_dec Z.eq_dec x l); simpl; lia.
Qed.

Lemma nodup_nonempty (l : list Z) : l <> [] -> (1 <= length (nodup Z.eq_dec l))%nat.
Proof.
  destruct l as [|x l]; [contradiction|]. intros _.
  assert (In x (nodup Z.eq_dec (x :: l))) as Hin by (apply nodup_In; now left).
  destruct (nodup Z.eq_dec (x :: l)); [contradiction | simpl; lia].
Qed.

Lemma present_all (df : DataFrame) :
  Forall (fun r => notna (date r) = true) df ->
  length (present (map date df)) = length df.
Proof.
  induction 1 as [|r df Hr _ IH]; simpl; [reflexivity|].
  destruct (date r); [simpl; now rewrite IH | discriminate].
Qed.

Section MoreAggregatorProps.
Context {RT : Runtime}.

Lemma process_entries_dates_present (entries : list RawEntry) (df : DataFrame) :
  process_entries entries = Ok df -> Forall (fun r => notna (date r) = true) df.
Proof.
  intros H. apply Forall_forall. intros r Hin.
  now destruct (process_entries_ok_inv _ _ _ H Hin) as (_ & _ & _ & _ & _ & Hd & _).
Qed.


(** X13. On a non-empty result of the normalizer, [days_tracked] is at least
    1 and at most the number of records, so the score is never "Unknown". *)
Theorem days_tracked_bounds (entries : list RawEntry) (df : DataFrame) :
  process_entries entries = Ok df -> df <> [] ->
  let m := calculate_metrics df in
  1 <= days_tracked m <= Z.of_nat (length df)
  /\ level (calculate_chronic_score m) <> "Unknown".
Proof.
  intros Hproc Hdf m.
  pose proof (process_entries_dates_present _ _ Hproc) as Hdates.
  assert (1 <= days_tracked m <= Z.of_nat (length df)) as Hb.
  { subst m. destruct df as [|r df]; [contradiction|].
    change (days_tracked (calculate_metrics (r :: df))) with (nunique (map date (r :: df))).
    unfold nunique.
    pose proof (nodup_length_le (present (map date (r :: df)))) as Hle.
    pose proof (present_all _ Hdates) as Hlen.
    assert (present (map date (r :: df)) <> []) as Hne.
    { intros E. rewrite E in Hlen. discriminate. }
    pose proof (nodup_nonempty _ Hne). unfold Timestamp in *. lia. }
  split; [exact Hb|]. intros Hlevel.
  unfold calculate_chronic_score in Hlevel.
  destruct (Z.eqb_spec (days_tracked m) 0) as [E | _]; [lia|].
  cbn [level] in Hlevel. unfold level_of in Hlevel.
  repeat match type of Hlevel with
         | context [if ?c then _ else _] => destruct c
         end; discriminate.
Qed.

End MoreAggregatorProps.

(** ** Sorting by a total preorder *)

Section SortByTotal.
Context {A : Type} (before : A -> A -> bool).
Hypothesis before_total : forall x y, before x y = false -> before y x = true.
Hypothesis before_trans :
  forall x y z, before x y = true -> before y z = true -> before x z = true.

Lemma insert_by_permutation (x : A) (l : list A) :
  Permutation (insert_by before x l) (x :: l).
Proof.
  induction l as [|y l IH]; simpl.
  - reflexivity.
  - destruct (before x y); [reflexivity|]. rewrite IH. apply perm_swap.
Qed.

Lemma sort_by_permutation (l : list A) : Permutation (sort_by before l) l.
Proof.
  induction l as [|x l IH]; simpl; [reflexivity|].
  rewrite insert_by_permutation. now apply perm_skip.
Qed.

Lemma insert_by_ordered (x : A) (l : list A) :
  StronglySorted (fun a b => before a b = true) l ->
  StronglySorted (fun a b => before a b = true) (insert_by before x l).
Proof.
  induction 1 as [|y l Hs IH Hall]; simpl.
  - repeat constructor.
  - destruct (before x y) eqn:E.
    + constructor; [now constructor|]. constructor; [assumption|].
      eapply Forall_impl; [|exact Hall]. intros a Ha. now apply (before_trans x y a).
    + constructor; [assumption|].
      eapply Permutation_Forall; [symmetry; apply insert_by_permutation|].
      constructor; [now apply before_total | assumption].
Qed.

Lemma sort_by_ordered (l : list A) :
  StronglySorted (fun a b => before a b = true) (sort_by before l).
Proof.
  induction l as [|x l IH]; simpl; [constructor | now apply insert_by_ordered].
Qed.

End SortByTotal.

Lemma StronglySorted_firstn {A : Type} (R : A -> A -> Prop) (n : nat) (l : list A) :
  StronglySorted R l -> StronglySorted R (firstn n l).
Proof.
  intros Hs. revert n. induction Hs as [|x l Hs IH Hall]; intros [|n]; simpl;
    try constructor.
  - apply IH.
  - rewrite Forall_forall in *. intros a Ha. apply Hall.
    rewrite <- (firstn_skipn n l). apply in_or_app. now left.
Qed.

Lemma NoDup_firstn {A : Type} (n : nat) (l : list A) : NoDup l -> NoDup (firstn n l).
Proof.
  intros Hnd. revert n. induction Hnd as [|x l Hx Hnd IH]; intros [|n]; simpl;
    try constructor.
  - intros Hin. apply Hx. rewrite <- (firstn_skipn n l). apply in_or_app. now left.
  - apply IH.
Qed.

Lemma In_firstn {A : Type} (n : nat) (l : list A) (x : A) :
  In x (firstn n l) -> In x l.
Proof.
  intros Hin. rewrite <- (firstn_skipn n l). apply in_or_app. now left.
Qed.

Lemma keyed_keys {A K V : Type} (f : A -> option K) (g : A -> V) (l : list A) (k : K) :
  In k (map fst (keyed (map (fun a => (f a, g a)) l)))
  <-> exists a, In a l /\ f a = Some k.
Proof.
  induction l as [|a l IH]; simpl.
  - split; [contradiction | intros (? & [] & _)].
  - destruct (f a) as [k'|] eqn:E; simpl; rewrite IH; split.
    + intros [<- | (a' & Ha' & Hf)]; [exists a; auto | exists a'; auto].
    + intros (a' & [<- | Ha'] & Hf); [left; congruence | right; exists a'; auto].
    + intros (a' & Ha' & Hf). exists a'; auto.
    + intros (a' & [<- | Ha'] & Hf); [congruence | exists a'; auto].
Qed.

Lemma round_values_keys (d : list (string * Q)) :
  map fst (round_values d) = map fst d.
Proof. unfold round_values. rewrite map_map. reflexivity. Qed.

Lemma round_values_descending (d : list (string * Q)) :
  StronglySorted (fun a b => Qle_bool (snd b) (snd a) = true) d ->
  StronglySorted (fun a b => (snd b <= snd a)%Q) (round_values d).
Proof.
  induction 1 as [|x d Hs IH Hall]; simpl; constructor; [assumption|].
  apply Forall_forall. intros y Hy. apply in_map_iff in Hy.
  destruct Hy as (y0 & <- & Hy0). simpl.
  rewrite Forall_forall in Hall. specialize (Hall y0 Hy0).
  apply Qle_bool_iff in Hall. now apply round2_mono.
Qed.

Section TopAppsProps.
Context {RT : Runtime}.

(** X14. For a non-empty record set, [top_apps] lists at most ten apps,
    each once, in descending order of their (rounded) hours, and every app
    it lists is the app of some record. *)
Theorem top_apps_ten_descending (df : DataFrame) :
  df <> [] ->
  exists d,
    top_apps (calculate_metrics df) = Some d
    /\ (length d <= 10)%nat
    /\ StronglySorted (fun a b => (snd b <= snd a)%Q) d
    /\ NoDup (map fst d)
    /\ (forall k, In k (map fst d) -> exists r, In r df /\ app r = Some k).
Proof.
  destruct df as [|r0 df0]; [contradiction|]. intros _.
  set (df := r0 :: df0).
  exists (round_values (top_apps_sums df)). split; [reflexivity|].
  unfold top_apps_sums.
  set (rows := keyed (map (fun r => (app r, Num.nan_to_zero (time_hours r))) df)).
  set (groups := groupby_sum String.compare Qplus rows).
  set (before := fun x y : string * Q => Qle_bool (snd y) (snd x)).
  assert (Permutation (sort_by before groups) groups) as Hperm
      by apply sort_by_permutation.
  assert (NoDup (map fst groups)) as Hnd.
  { apply (groupby_sum_NoDup String.compare Qplus string_compare_eq
             String.compare_antisym string_compare_trans). }
  split; [|split; [|split]].
  - rewrite round_values_length. apply firstn_le_length.
  - apply round_values_descending. apply StronglySorted_firstn.
    apply sort_by_ordered; unfold before.
    + intros x y Hxy. apply Qle_bool_iff.
      apply Qlt_le_weak, Qnot_le_lt. intros Hle. apply Qle_bool_iff in Hle. congruence.
    + intros x y z Hxy Hyz. apply Qle_bool_iff in Hxy, Hyz. apply Qle_bool_iff.
      eapply Qle_trans; eassumption.
  - rewrite round_values_keys, <- firstn_map. apply NoDup_firstn.
    eapply Permutation_NoDup; [|exact Hnd].
    symmetry. now apply Permutation_map.
  - intros k Hk. rewrite round_values_keys, <- firstn_map in Hk.
    apply In_firstn in Hk.
    apply (Permutation_in _ (Permutation_map fst Hperm)) in Hk.
    unfold groups in Hk.
    rewrite (groupby_sum_keys String.compare Qplus string_compare_eq k rows) in Hk.
    unfold rows in Hk. now rewrite keyed_keys in Hk.
Qed.

End TopAppsProps.

(** ** Looking a category up in the breakdown *)








Section BreakdownProps.
Context {RT : Runtime}.




End BreakdownProps.

(** ** Daily and weekly totals *)






Section TotalsProps.
Context {RT : Runtime}.


End TotalsProps.

(** ** Pipeline *)

Section PipelineProps.
Context {RT : Runtime}.

Lemma tracked_when_nonempty (entries : list RawEntry) (df : DataFrame) :
  process_entries entries = Ok df -> df <> [] ->
  1 <= days_tracked (calculate_metrics df).
Proof.
  intros Hproc Hdf.
  pose proof (process_entries_dates_present _ _ Hproc) as Hdates.
  destruct df as [|r df]; [contradiction|].
  change (days_tracked (calculate_metrics (r :: df))) with (nunique (map date (r :: df))).
  unfold nunique.
  pose proof (present_all _ Hdates) as Hlen.
  assert (present (map date (r :: df)) <> []) as Hne.
  { intros E. rewrite E in Hlen. discriminate. }
  pose proof (nodup_nonempty _ Hne). lia.
Qed.

Lemma generate_tips_length (m : Metrics) (df : DataFrame) :
  df <> [] -> (1 <= length (generate_tips m df))%nat.
Proof.
  intros Hdf. rewrite (generate_tips_nonempty m df Hdf). unfold sort_tips.
  rewrite (Permutation_length (sort_by_perm rank (tips_appended m))).
  unfold tips_appended. cbv zeta. rewrite length_app. simpl. lia.
Qed.

(** X18. When [analyze_entries] returns, four things hold together or not at
    all: no record was retained, the metrics are the zero state, the level
    is "Unknown", and the tip list is empty.  This includes a non-empty input
    all of whose entries were dropped.  The count of retained records never
    exceeds the number of entries. *)
Theorem analyze_entries_zero_state_iff (entries : list RawEntry) (a : Analysis) :
  analyze_entries entries = Ok a ->
  (processed_entries_count a = 0 <-> metrics a = zero_metrics)
  /\ (processed_entries_count a = 0 <-> level (chronic_score a) = "Unknown")
  /\ (processed_entries_count a = 0 <-> tips a = [])
  /\ 0 <= processed_entries_count a <= Z.of_nat (length entries).
Proof.
  unfold analyze_entries. intros H. apply bind_ok_inv in H.
  destruct H as (df & Hproc & H). injection H as <-.
  cbn [processed_entries_count metrics chronic_score tips].
  assert (Z.of_nat (length df) <= Z.of_nat (length entries)) as Hle.
  { pose proof (process_entries_keeps_rows_bound entries df Hproc). lia. }
  destruct df as [|r df].
  - repeat split; auto; simpl; lia.
  - pose proof (tracked_when_nonempty _ _ Hproc ltac:(discriminate)) as Hdays.
    pose proof (generate_tips_length (calculate_metrics (r :: df)) (r :: df)
                  ltac:(discriminate)) as Htips.
    set (m := calculate_metrics (r :: df)) in *.
    split; [|split; [|split]].
    + split; [simpl; lia|]. intros Hm. rewrite Hm in Hdays. simpl in Hdays. lia.
    + split; [simpl; lia|]. intros Hlevel. exfalso.
      unfold calculate_chronic_score in Hlevel.
      destruct (Z.eqb_spec (days_tracked m) 0) as [E | _]; [lia|].
      cbn [level] in Hlevel. unfold level_of in Hlevel.
      repeat match type of Hlevel with
             | context [if ?c then _ else _] => destruct c
             end; discriminate.
    + split; [simpl; lia|]. intros Ht. rewrite Ht in Htips. simpl in Htips. lia.
    + simpl length in *. lia.
Qed.

End PipelineProps.

(** ** HTTP layer *)

Lemma dict_get_set_same {V : Type} (k : string) (v : V) (d : list (string * V)) :
  Dict.get k (Dict.set k v d) = Some v.
Proof.
  induction d as [|[k1 v1] d IH]; simpl.
  - now rewrite String.eqb_refl.
  - destruct (String.eqb k1 k) eqn:E; simpl; rewrite E; [reflexivity | exact IH].
Qed.

Lemma dict_get_set_other {V : Type} (k k' : string) (v : V) (d : list (string * V)) :
  k' <> k -> Dict.get k' (Dict.set k v d) = Dict.get k' d.
Proof.
  intros Hne. induction d as [|[k1 v1] d IH]; simpl.
  - destruct (String.eqb_spec k k'); [congruence | reflexivity].
  - destruct (String.eqb_spec k1 k) as [-> | Hk1]; simpl.
    + destruct (String.eqb_spec k k'); [congruence | reflexivity].
    + destruct (String.eqb k1 k'); [reflexivity | exact IH].
Qed.

Section HttpProps.
Context {RT : Runtime} {BI : Builtins}.

(** The storage left by [submit_entries], whatever it answers. *)
Lemma submit_entries_storage (storage : Storage) (request : EntriesRequest) :
  let user_id := effective_user request in
  let storage' := fst (submit_entries storage request) in
  history user_id storage'
    = (history user_id storage ++ map model_dump (req_entries request))%list
  /\ (forall u, u <> user_id -> Dict.get u storage' = Dict.get u storage)
  /\ Dict.mem user_id storage' = true.
Proof.
  intros user_id storage'. subst storage'. unfold submit_entries. cbv zeta.
  fold user_id.
  set (s1 := if Dict.mem user_id storage then storage else Dict.set user_id [] storage).
  assert (history user_id s1 = history user_id storage) as H1.
  { unfold s1, history, Dict.mem.
    destruct (Dict.get user_id storage) eqn:E; [now rewrite E|].
    now rewrite dict_get_set_same. }
  assert (forall u, u <> user_id -> Dict.get u s1 = Dict.get u storage) as H1'.
  { intros u Hu. unfold s1. destruct (Dict.mem user_id storage); [reflexivity|].
    now apply dict_get_set_other. }
  set (s2 := Dict.set user_id (history user_id s1 ++ map model_dump (req_entries request))%list s1).
  assert (history user_id s2
          = (history user_id storage ++ map model_dump (req_entries request))%list) as H2.
  { unfold history at 1. unfold s2. rewrite dict_get_set_same. now rewrite H1. }
  assert (forall u, u <> user_id -> Dict.get u s2 = Dict.get u storage) as H2'.
  { intros u Hu. unfold s2. rewrite dict_get_set_other by assumption. now apply H1'. }
  assert (Dict.mem user_id s2 = true) as H2''.
  { unfold Dict.mem, s2. now rewrite dict_get_set_same. }
  destruct (analyze_entries (history user_id s2)); cbn [fst]; repeat split; assumption.
Qed.

(** X19. [submit_entries] always appends the request's entries to the user's
    history and leaves every other user's history alone, whether it answers
    with the analytics or with a 400: a failed submit is not rolled back. *)
Theorem submit_entries_always_stores (storage : Storage) (request : EntriesRequest) :
  let user_id := effective_user request in
  let storage' := fst (submit_entries storage request) in
  history user_id storage'
    = (history user_id storage ++ map model_dump (req_entries request))%list
  /\ (forall u, u <> user_id -> Dict.get u storage' = Dict.get u storage)
  /\ (forall ex, snd (submit_entries storage request) = inr ex ->
      status_code ex = 400
      /\ exists e, analyze_entries (history user_id storage') = Raise e).
Proof.
  intros user_id storage'.
  destruct (submit_entries_storage storage request) as (Hh & Ho & _).
  fold user_id in Hh, Ho. fold storage' in Hh, Ho.
  split; [exact Hh|]. split; [exact Ho|].
  intros ex Hex. subst storage'. revert Hex.
  unfold submit_entries. cbv zeta. fold user_id.
  destruct (analyze_entries _) as [result | e] eqn:Ea; cbn [fst snd]; intros Hex.
  - discriminate.
  - injection Hex as <-. split; [reflexivity|]. now exists e.
Qed.

End HttpProps.

Lemma dict_set_set {V : Type} (k : string) (v : V) (d : list (string * V)) :
  Dict.set k v (Dict.set k v d) = Dict.set k v d.
Proof.
  induction d as [|[k1 v1] d IH]; simpl.
  - now rewrite String.eqb_refl.
  - destruct (String.eqb k1 k) eqn:E; simpl; rewrite E; [reflexivity | now rewrite IH].
Qed.

Section MoreHttpProps.
Context {RT : Runtime} {BI : Builtins}.

(** The answer of [submit_entries], read off the storage it leaves. *)
Lemma submit_entries_response (storage : Storage) (request : EntriesRequest) :
  let user_id := effective_user request in
  let storage' := fst (submit_entries storage request) in
  snd (submit_entries storage request) =
  match analyze_entries (history user_id storage') with
  | Ok result =>
      inl {| sr_message :=
               "Successfully added "
               ++ str_int (Z.of_nat (length (req_entries request))) ++ " entries";
             sr_total_entries := Z.of_nat (length (history user_id storage'));
             sr_metrics := metrics result;
             sr_chronic_score := chronic_score result;
             sr_tips := tips result |}
  | Raise e =>
      inr {| status_code := 400;
             detail := "Error processing entries: " ++ str_exn e |}
  end.
Proof.
  intros user_id storage'. subst storage'. unfold submit_entries. cbv zeta.
  fold user_id.
  destruct (analyze_entries _) as [result | e] eqn:Ea; cbn [fst snd]; now rewrite Ea.
Qed.

Lemma get_analytics_nonempty (storage : Storage) (user_id : string) :
  Dict.mem user_id storage = true -> history user_id storage <> [] ->
  get_analytics storage user_id =
  match analyze_entries (history user_id storage) with
  | Ok result => inl (Analytics result (Z.of_nat (length (history user_id storage))))
  | Raise e =>
      inr {| status_code := 500;
             detail := "Error calculating analytics: " ++ str_exn e |}
  end.
Proof.
  intros Hmem Hne. unfold get_analytics. rewrite Hmem.
  destruct (history user_id storage); [contradiction | reflexivity].
Qed.

(** X20. After a submit that was answered with a 400, [get_analytics] for
    the same user answers with a 500 carrying the same exception text: the
    entry that made the analysis raise stays in the user's history. *)
Theorem failed_submit_breaks_get_analytics
        (storage : Storage) (request : EntriesRequest) (ex : HTTPException) :
  snd (submit_entries storage request) = inr ex ->
  exists e,
    ex = {| status_code := 400; detail := "Error processing entries: " ++ str_exn e |}
    /\ get_analytics (fst (submit_entries storage request)) (effective_user request)
       = inr {| status_code := 500;
                detail := "Error calculating analytics: " ++ str_exn e |}.
Proof.
  intros Hex. rewrite submit_entries_response in Hex.
  destruct (submit_entries_storage storage request) as (_ & _ & Hmem).
  cbv zeta in Hex, Hmem.
  set (storage' := fst (submit_entries storage request)) in *.
  set (user_id := effective_user request) in *.
  destruct (analyze_entries (history user_id storage')) as [result | e] eqn:Ea;
    [discriminate|].
  injection Hex as <-. exists e. split; [reflexivity|].
  rewrite get_analytics_nonempty; [now rewrite Ea | exact Hmem |].
  intros Hnil. rewrite Hnil in Ea. discriminate.
Qed.

(** X21. After a submit of at least one entry that was answered with the
    analytics, [get_analytics] for the same user returns the same metrics,
    score and tips, and the same number of stored entries, which is the old
    history's length plus the number of entries submitted. *)
Theorem get_analytics_after_submit
        (storage : Storage) (request : EntriesRequest) (resp : SubmitResponse) :
  req_entries request <> [] ->
  snd (submit_entries storage request) = inl resp ->
  exists a,
    get_analytics (fst (submit_entries storage request)) (effective_user request)
    = inl (Analytics a (sr_total_entries resp))
    /\ metrics a = sr_metrics resp
    /\ chronic_score a = sr_chronic_score resp
    /\ tips a = sr_tips resp
    /\ sr_total_entries resp
       = Z.of_nat (length (history (effective_user request) storage)
                   + length (req_entries request)).
Proof.
  intros Hne Hresp. rewrite submit_entries_response in Hresp.
  destruct (submit_entries_storage storage request) as (Hh & _ & Hmem).
  cbv zeta in Hresp, Hh, Hmem.
  set (storage' := fst (submit_entries storage request)) in *.
  set (user_id := effective_user request) in *.
  destruct (analyze_entries (history user_id storage')) as [result | e] eqn:Ea;
    [|discriminate].
  injection Hresp as <-. exists result. cbn [sr_total_entries sr_metrics sr_chronic_score sr_tips].
  split; [|repeat split].
  - rewrite get_analytics_nonempty; [now rewrite Ea | exact Hmem |].
    rewrite Hh. intros Hnil. apply app_eq_nil in Hnil. destruct Hnil as [_ Hnil].
    apply map_eq_nil in Hnil. contradiction.
  - rewrite Hh, length_app, length_map. reflexivity.
Qed.

(** X22. After [clear_entries], [get_analytics] for that user answers "No
    entries found"; other users' histories are untouched, clearing twice is
    clearing once, and clearing an unknown user leaves the storage as it
    was. *)
Theorem clear_entries_resets (storage : Storage) (user_id : string) :
  let storage' := fst (clear_entries storage user_id) in
  get_analytics storage' user_id = inl NoEntriesFound
  /\ (forall u, u <> user_id -> Dict.get u storage' = Dict.get u storage)
  /\ fst (clear_entries storage' user_id) = storage'
  /\ (Dict.mem user_id storage = false -> storage' = storage).
Proof.
  intros storage'. subst storage'. unfold clear_entries. cbn [fst].
  destruct (Dict.mem user_id storage) eqn:Em.
  - assert (Dict.mem user_id (Dict.set user_id [] storage) = true) as Hmem.
    { unfold Dict.mem. now rewrite dict_get_set_same. }
    rewrite Hmem. repeat split.
    + unfold get_analytics, history. rewrite Hmem, dict_get_set_same. reflexivity.
    + intros u Hu. now apply dict_get_set_other.
    + apply dict_set_set.
    + discriminate.
  - rewrite Em. repeat split.
    unfold get_analytics. now rewrite Em.
Qed.


End MoreHttpProps.

(** * Further runs on concrete inputs *)

Module MoreRuns.
Import Reference Samples.

(** "Nike Run Club" goes to Shopping. *)
Lemma nike_run_club :
  matches (Str.lower "Nike Run Club") ["nike run"]
  /\ In (auto_categorize_app "Nike Run Club")
        ["Social Media"; "Productivity"; "Entertainment"; "Gaming"; "News"; "Shopping"]
  /\ auto_categorize_app "Nike Run Club" <> "Health & Fitness".
Proof.
  assert (matches (Str.lower "Nike Run Club") ["nike run"]) as Hm.
  { exists "nike run", "", " club". split; [left; reflexivity | reflexivity]. }
  split; [exact Hm|]. exact (nike_run_is_shadowed "Nike Run Club" Hm).
Defined.


Lemma chronically_online_run :
  (level (calculate_chronic_score (six_hours 1)) = "Chronically Online"
   <-> 80 <= score (calculate_chronic_score (six_hours 1)))
  /\ (level (calculate_chronic_score (six_hours 1)) = "Chronically Online" ->
      (4 <= avg_hours_per_day (six_hours 1) /\ 20 <= doomscroll_ratio (six_hours 1)
       /\ 50 <= avg_pickups_per_day (six_hours 1))%Q).
Proof. apply (chronically_online_needs_all_factors (six_hours 1)). simpl. lia. Defined.

Lemma sort_is_identity_run :
  generate_tips (six_hours 1) half_minute = tips_appended (six_hours 1).
Proof. apply (generate_tips_sort_is_identity (six_hours 1) half_minute). discriminate. Defined.

Lemma tips_agree_run :
  (has_tip "general" (generate_tips (six_hours 1) half_minute)
   <-> 30 <= time_score (six_hours 1))
  /\ (has_tip "boundaries" (generate_tips (six_hours 1) half_minute)
      <-> 20 <= time_score (six_hours 1))
  /\ (has_tip "social_media" (generate_tips (six_hours 1) half_minute)
      <-> 20 <= doomscroll_score (six_hours 1))
  /\ (has_tip "pickups" (generate_tips (six_hours 1) half_minute)
      <-> 20 <= pickup_score (six_hours 1)).
Proof.
  apply (tips_agree_with_subscores (six_hours 1) half_minute).
  - discriminate.
  - reflexivity.
Defined.





Lemma days_tracked_bounds_run :
  exists df,
    process_entries scenario = Ok df
    /\ df <> []
    /\ let m := calculate_metrics df in
       1 <= days_tracked m <= Z.of_nat (length df)
       /\ level (calculate_chronic_score m) <> "Unknown".
Proof.
  assert (exists df, process_entries scenario = Ok df /\ df <> []) as (df & Hdf & Hne).
  { eexists. split; [vm_compute; reflexivity | discriminate]. }
  exists df. split; [exact Hdf|]. split; [exact Hne|].
  exact (days_tracked_bounds scenario df Hdf Hne).
Defined.

Lemma top_apps_run :
  exists d,
    top_apps (calculate_metrics half_minute) = Some d
    /\ (length d <= 10)%nat
    /\ StronglySorted (fun a b => (snd b <= snd a)%Q) d
    /\ NoDup (map fst d)
    /\ (forall k, In k (map fst d) -> exists r, In r half_minute /\ app r = Some k).
Proof. apply (top_apps_ten_descending half_minute). discriminate. Defined.


Lemma zero_state_iff_run :
  exists a,
    analyze_entries [non_numeric] = Ok a
    /\ (processed_entries_count a = 0 <-> metrics a = zero_metrics)
    /\ (processed_entries_count a = 0 <-> level (chronic_score a) = "Unknown")
    /\ (processed_entries_count a = 0 <-> tips a = [])
    /\ 0 <= processed_entries_count a <= Z.of_nat (length [non_numeric]).
Proof.
  assert (exists a, analyze_entries [non_numeric] = Ok a) as (a & Ha).
  { eexists. vm_compute. reflexivity. }
  exists a. split; [exact Ha|].
  exact (analyze_entries_zero_state_iff [non_numeric] a Ha).
Defined.

Lemma failed_submit_run :
  exists ex e,
    snd (submit_entries initial_storage bad_request) = inr ex
    /\ ex = {| status_code := 400; detail := "Error processing entries: " ++ str_exn e |}
    /\ get_analytics (fst (submit_entries initial_storage bad_request))
         (effective_user bad_request)
       = inr {| status_code := 500;
                detail := "Error calculating analytics: " ++ str_exn e |}.
Proof.
  assert (exists ex, snd (submit_entries initial_storage bad_request) = inr ex)
    as (ex & Hex).
  { eexists. vm_compute. reflexivity. }
  destruct (failed_submit_breaks_get_analytics initial_storage bad_request ex Hex)
    as (e & He & Hget).
  exists ex, e. split; [exact Hex|]. split; [exact He | exact Hget].
Defined.

Lemma get_after_submit_run :
  exists resp a,
    snd (submit_entries initial_storage good_request) = inl resp
    /\ get_analytics (fst (submit_entries initial_storage good_request))
         (effective_user good_request)
       = inl (Analytics a (sr_total_entries resp))
    /\ metrics a = sr_metrics resp
    /\ chronic_score a = sr_chronic_score resp
    /\ tips a = sr_tips resp
    /\ sr_total_entries resp
       = Z.of_nat (length (history (effective_user good_request) initial_storage)
                   + length (req_entries good_request)).
Proof.
  assert (exists resp, snd (submit_entries initial_storage good_request) = inl resp)
    as (resp & Hresp).
  { eexists. vm_compute. reflexivity. }
  destruct (get_analytics_after_submit initial_storage good_request resp
              ltac:(discriminate) Hresp) as (a & Ha).
  exists resp, a. split; [exact Hresp | exact Ha].
Defined.


End MoreRuns.

(** * Dropped rows and entry order *)










Section OrderProps.
Context {RT : Runtime}.




End OrderProps.

Module OrderRuns.
Import Reference Samples.



End OrderRuns.
